(** * Doris operator: the reconciliation pipeline

    A shallow embedding of [internal/reconciler/doriscluster_reconciler.go]
    and [internal/transformer/fe_resources.go].

    - Kubernetes objects are records with the fields the two files read or
      write; Go maps are [gmap string string].  A map that the code *writes*
      through ([ObjectMeta.Annotations]) is an [option]: [None] is Go's nil
      map, which can be read but faults on assignment.
    - The object-store client ([ReconcileContext]) is an interface; a stage
      is a computation in a small monad that threads the store and records
      every client call together with the answer it got.
    - A Go runtime panic is an outcome of its own, next to a normal return. *)

From Stdlib Require Import ZArith String List DecimalString.
From stdpp Require Import base option list gmap strings pretty.

Local Open Scope Z_scope.
Local Open Scope string_scope.

(** ** k8s.io/apimachinery/pkg/types *)

Module types.

Module NamespacedName.
Record t := mk { Namespace : string; Name : string }.
End NamespacedName.

End types.

(** ** k8s.io/apimachinery/pkg/apis/meta/v1 *)

Module metav1.

Module OwnerReference.
Record t := mk { Kind : string; Name : string }.
End OwnerReference.

Module ObjectMeta.
Record t := mk {
  Name : string;
  Namespace : string;
  Labels : gmap string string;
  (* nil map = None; the reconciler assigns into this map *)
  Annotations : option (gmap string string);
  OwnerReferences : list OwnerReference.t
}.

(* The zero value of the fields a composite literal leaves out. *)
Definition named (name namespace : string) (labels : gmap string string) : t :=
  mk name namespace labels None [].

Definition with_Annotations (a : option (gmap string string)) (m : t) : t :=
  mk (Name m) (Namespace m) (Labels m) a (OwnerReferences m).

Definition with_OwnerReferences (o : list OwnerReference.t) (m : t) : t :=
  mk (Name m) (Namespace m) (Labels m) (Annotations m) o.
End ObjectMeta.

Module LabelSelector.
Record t := mk { MatchLabels : gmap string string }.
End LabelSelector.

End metav1.

(** ** k8s.io/api/core/v1 *)

Module corev1.
Import metav1.

Definition ServiceTypeClusterIP : string := "ClusterIP".
Definition ReadWriteOnce : string := "ReadWriteOnce".
Definition StorageMediumDefault : string := "".
Definition ResourceStorage : string := "storage".

(* resource.Quantity, kept as its canonical text *)
Definition Quantity := string.

Module ServicePort.
Record t := mk { Name : string; Port : Z; NodePort : Z }.
Definition with_NodePort (n : Z) (p : t) : t := mk (Name p) (Port p) n.
End ServicePort.

Module ServiceSpec.
Record t := mk {
  Ports : list ServicePort.t;
  Selector : gmap string string;
  Type_ : string;
  ClusterIP : string;
  ExternalTrafficPolicy : string
}.
End ServiceSpec.

Module Service.
Record t := mk { Meta : ObjectMeta.t; Spec : ServiceSpec.t }.
End Service.

Module ConfigMap.
Record t := mk { Meta : ObjectMeta.t; Data : gmap string string }.
End ConfigMap.

Module Secret.
Record t := mk { Meta : ObjectMeta.t; StringData : gmap string string }.
End Secret.

Module PersistentVolumeClaim.
Record t := mk {
  Name : string;
  AccessModes : list string;
  StorageClassName : option string;
  Requests : gmap string Quantity
}.
End PersistentVolumeClaim.

Module VolumeSource.
Inductive t :=
| ConfigMap (name : string)
| EmptyDir (medium : string)
| Other (raw : string).
End VolumeSource.

Module Volume.
Record t := mk { Name : string; Source : VolumeSource.t }.
End Volume.

Module ContainerPort.
Record t := mk { Name : string; ContainerPort : Z }.
End ContainerPort.

Module SecretKeySelector.
Record t := mk { Name : string; Key : string }.
End SecretKeySelector.

Module EnvVar.
Record t := mk {
  Name : string;
  Value : string;
  ValueFrom : option SecretKeySelector.t
}.
End EnvVar.

Module VolumeMount.
Record t := mk { Name : string; MountPath : string }.
End VolumeMount.

Module Probe.
Record t := mk {
  TCPSocketPort : Z;
  InitialDelaySeconds : Z;
  TimeoutSeconds : Z;
  PeriodSeconds : Z;
  SuccessThreshold : Z;
  FailureThreshold : Z
}.
End Probe.

Module Container.
Record t := mk {
  Name : string;
  Image : string;
  ImagePullPolicy : string;
  Requests : gmap string Quantity;
  Ports : list ContainerPort.t;
  Env : list EnvVar.t;
  VolumeMounts : list VolumeMount.t;
  ReadinessProbe : option Probe.t
}.
End Container.

Module HostAlias.
Record t := mk { IP : string; Hostnames : list string }.
End HostAlias.

(* Affinity and Toleration are passed through untouched. *)
Module Affinity.
Record t := mk { raw : string }.
End Affinity.

Module Toleration.
Record t := mk { raw : string }.
End Toleration.

Module PodSpec.
Record t := mk {
  Volumes : list Volume.t;
  InitContainers : list Container.t;
  Containers : list Container.t;
  ImagePullSecrets : list string;
  ServiceAccountName : string;
  Affinity : option Affinity.t;
  Tolerations : list Toleration.t;
  PriorityClassName : string;
  HostAliases : list HostAlias.t
}.
End PodSpec.

Module PodTemplateSpec.
Record t := mk { Meta : ObjectMeta.t; Spec : PodSpec.t }.
End PodTemplateSpec.

End corev1.

(** ** k8s.io/api/apps/v1 *)

Module appv1.
Import metav1 corev1.

Definition RollingUpdateStatefulSetStrategyType : string := "RollingUpdate".

Module StatefulSetSpec.
Record t := mk {
  Replicas : option Z;
  ServiceName : string;
  Selector : option LabelSelector.t;
  VolumeClaimTemplates : list PersistentVolumeClaim.t;
  Template : PodTemplateSpec.t;
  UpdateStrategy : string
}.
Definition with_Replicas (r : option Z) (s : t) : t :=
  mk r (ServiceName s) (Selector s) (VolumeClaimTemplates s) (Template s)
     (UpdateStrategy s).
End StatefulSetSpec.

Module StatefulSet.
Record t := mk { Meta : ObjectMeta.t; Spec : StatefulSetSpec.t }.
Definition with_Meta (m : ObjectMeta.t) (s : t) : t := mk m (Spec s).
Definition with_Spec (sp : StatefulSetSpec.t) (s : t) : t := mk (Meta s) sp.
End StatefulSet.

End appv1.

(** ** api/v1beta1

    The API package is not among the sources; its types carry the fields the
    two files use, and its string constants are tags. *)

Module dapi.
Import types metav1 corev1.

Inductive DorisClusterOprStage :=
| StageSqlAccountSecret
| StageFe | StageFeConfigmap | StageFeService | StageFeStatefulSet
| StageBe | StageBeConfigmap | StageBeService | StageBeStatefulSet
| StageCn | StageCnConfigmap | StageCnService | StageCnStatefulSet
| StageBroker | StageBrokerConfigmap | StageBrokerService
| StageBrokerStatefulSet
| StageComplete.

Inductive OprStageStatus := StageResultSucceeded | StageResultFailed.

(* [StageActionNone] is the zero value of the field. *)
Inductive OprStageAction := StageActionNone | StageActionApply | StageActionDelete.

Module ExportService.
Record t := mk {
  Type_ : string;
  ExternalTrafficPolicy : option string;
  HttpPort : option Z;
  QueryPort : option Z
}.
End ExportService.

Module FESpec.
Record t := mk {
  Replicas : Z;
  Configs : gmap string string;
  Service : option ExportService.t;
  StorageClassName : option string;
  Requests : gmap string Quantity;
  AdditionalVolumes : list Volume.t;
  AdditionalEnvs : list EnvVar.t;
  AdditionalVolumeMounts : list VolumeMount.t;
  AdditionalContainers : list Container.t;
  AdditionalInitContainers : list Container.t;
  HostAliases : list HostAlias.t;
  ServiceAccount : string;
  Affinity : option Affinity.t;
  Tolerations : list Toleration.t;
  PriorityClassName : string;
  StatefulSetUpdateStrategy : option string
}.
End FESpec.

(* BE, CN and Broker sub-specs: the reconciler only tests them for nil. *)
Module RoleSpec.
Record t := mk { Replicas : Z; Configs : gmap string string }.
End RoleSpec.

Module HadoopConf.
Record t := mk { Hosts : list HostAlias.t; Config : gmap string string }.
End HadoopConf.

Module DorisClusterSpec.
Record t := mk {
  FE : option FESpec.t;
  BE : option RoleSpec.t;
  CN : option RoleSpec.t;
  Broker : option RoleSpec.t;
  HadoopConf : option HadoopConf.t;
  ImagePullPolicy : string;
  ImagePullSecrets : list string;
  ServiceAccount : string;
  Affinity : option Affinity.t;
  Tolerations : list Toleration.t;
  PriorityClassName : string;
  StatefulSetUpdateStrategy : option string
}.
End DorisClusterSpec.

Module DorisCluster.
Record t := mk { Name : string; Namespace : string; Spec : DorisClusterSpec.t }.
Definition ObjKey (cr : t) : NamespacedName.t :=
  NamespacedName.mk (Namespace cr) (Name cr).
End DorisCluster.

End dapi.

(** ** internal/util (generic helpers, not among the sources) *)

Module util.

(** Modelled from the spec: [util.Elvis] is missing; the reconciler uses it as
    the ternary choice between the apply path and the delete path. *)
Definition Elvis {A : Type} (cond : bool) (a b : A) : A :=
  if cond then a else b.

(** Modelled from the spec: the fallback helpers are missing; a role-level
    value overrides the cluster-level one, which overrides a hard-coded
    default. *)
Definition StringFallback (a b : string) : string :=
  if decide (a = "") then b else a.

Definition PointerFallback {A : Type} (a b : option A) : option A :=
  match a with Some _ => a | None => b end.

Definition ArrayFallback {A : Type} (a b : list A) : list A :=
  match a with [] => b | _ => a end.

Definition PointerFallbackAndDeRefer {A : Type} (a b : option A) (d : A) : A :=
  match a, b with
  | Some x, _ => x
  | None, Some y => y
  | None, None => d
  end.

End util.

(** ** sigs.k8s.io/controller-runtime/pkg/controller/controllerutil *)

Module controllerutil.
Import metav1 dapi.

(** Modelled from the spec: every managed object carries an owner
    back-reference to the cluster resource.  The library call touches the
    owner references of the object's metadata and nothing else. *)
Definition SetOwnerReference (cr : DorisCluster.t) (m : ObjectMeta.t) : ObjectMeta.t :=
  ObjectMeta.with_OwnerReferences
    [OwnerReference.mk "DorisCluster" (DorisCluster.Name cr)] m.

End controllerutil.

(** ** k8s ResourceList and strconv *)

Module resource.
Import corev1.

(* ResourceList.Storage never returns nil: an absent entry is the zero
   quantity. *)
Definition Storage (rl : gmap string Quantity) : option Quantity :=
  Some (default "0" (rl !! ResourceStorage)).

End resource.

Module strconv.
Definition Itoa (n : Z) : string := pretty n.
End strconv.

(** ** internal/transformer *)

Module transformer.
Import types metav1 corev1 appv1 dapi.

(** Functions and constants that [fe_resources.go] and the reconciler call
    but that live in files outside the sources.  They stay parameters of the
    development. *)
Class Helpers := {
  (* dapi.GroupVersion.Group *)
  Group : string;
  MakeResourceLabels : string -> string -> gmap string string;
  getPortValueFromRawConf : gmap string string -> string -> Z -> Z;
  dumpJavaBasedComponentConf : gmap string string -> string;
  mergeHostAlias : list HostAlias.t -> list HostAlias.t -> list HostAlias.t;
  GetOprSqlAccountSecretName : DorisCluster.t -> NamespacedName.t;
  GetFeImage : DorisCluster.t -> string;
  PrometheusPathAnnoKey : string;
  PrometheusPortAnnoKey : string;
  PrometheusScrapeAnnoKey : string;
  (* util.MergeMaps and util.MapMd5 *)
  MergeMaps : gmap string string -> gmap string string -> gmap string string;
  MapMd5 : gmap string string -> string
}.

Section fe_resources.
Context `{Helpers}.

Definition DefaultFeHttpPort : Z := 8030.
Definition DefaultFeEditLogPort : Z := 9010.
Definition DefaultFeRpcPort : Z := 9020.
Definition DefaultFeQueryPort : Z := 9030.

Definition GetFeComponentLabels (r : DorisCluster.t) : gmap string string :=
  MakeResourceLabels (DorisCluster.Name r) "fe".

Definition GetFeConfigMapName (cr : DorisCluster.t) : NamespacedName.t :=
  NamespacedName.mk (DorisCluster.Namespace cr) (DorisCluster.Name cr +:+ "-fe-config").

Definition GetFeServiceName (cr : DorisCluster.t) : NamespacedName.t :=
  NamespacedName.mk (DorisCluster.Namespace cr) (DorisCluster.Name cr +:+ "-fe").

Definition GetFePeerServiceName (cr : DorisCluster.t) : NamespacedName.t :=
  NamespacedName.mk (DorisCluster.Namespace cr) (DorisCluster.Name cr +:+ "-fe-peer").

Definition GetFeStatefulSetName (r : DorisCluster.t) : NamespacedName.t :=
  NamespacedName.mk (DorisCluster.Namespace r) (DorisCluster.Name r +:+ "-fe").

Definition GetFeHttpPort (cr : DorisCluster.t) : Z :=
  match DorisClusterSpec.FE (DorisCluster.Spec cr) with
  | None => DefaultFeHttpPort
  | Some fe => getPortValueFromRawConf (FESpec.Configs fe) "http_port" DefaultFeHttpPort
  end.

Definition GetFeQueryPort (cr : DorisCluster.t) : Z :=
  match DorisClusterSpec.FE (DorisCluster.Spec cr) with
  | None => DefaultFeQueryPort
  | Some fe => getPortValueFromRawConf (FESpec.Configs fe) "query_port" DefaultFeQueryPort
  end.

Definition GetFeRpcPort (cr : DorisCluster.t) : Z :=
  match DorisClusterSpec.FE (DorisCluster.Spec cr) with
  | None => DefaultFeRpcPort
  | Some fe => getPortValueFromRawConf (FESpec.Configs fe) "query_port" DefaultFeRpcPort
  end.

Definition GetFeEditLogPort (cr : DorisCluster.t) : Z :=
  match DorisClusterSpec.FE (DorisCluster.Spec cr) with
  | None => DefaultFeEditLogPort
  | Some fe => getPortValueFromRawConf (FESpec.Configs fe) "edit_log_port" DefaultFeEditLogPort
  end.

Definition MakeFeConfigMap (cr : DorisCluster.t) : option ConfigMap.t :=
  match DorisClusterSpec.FE (DorisCluster.Spec cr) with
  | None => None
  | Some fe =>
      let configMapRef := GetFeConfigMapName cr in
      let data : gmap string string :=
        {[ "fe.conf" := dumpJavaBasedComponentConf (FESpec.Configs fe) ]} in
      (* merge hadoop config data *)
      let data :=
        match DorisClusterSpec.HadoopConf (DorisCluster.Spec cr) with
        | Some hc => MergeMaps (HadoopConf.Config hc) data
        | None => data
        end in
      let meta :=
        ObjectMeta.named (NamespacedName.Name configMapRef)
          (NamespacedName.Namespace configMapRef) (GetFeComponentLabels cr) in
      Some (ConfigMap.mk (controllerutil.SetOwnerReference cr meta) data)
  end.

Definition MakeFeService (cr : DorisCluster.t) : option Service.t :=
  match DorisClusterSpec.FE (DorisCluster.Spec cr) with
  | None => None
  | Some fe =>
      let serviceRef := GetFeServiceName cr in
      let feLabels := GetFeComponentLabels cr in
      let meta :=
        ObjectMeta.named (NamespacedName.Name serviceRef)
          (NamespacedName.Namespace serviceRef) feLabels in
      let httpPort := ServicePort.mk "http-port" (GetFeHttpPort cr) 0 in
      let queryPort := ServicePort.mk "query-port" (GetFeQueryPort cr) 0 in
      (* When the user specifies a service type *)
      let '(type, policy, httpPort, queryPort) :=
        match FESpec.Service fe with
        | Some crSvc =>
            let type :=
              if decide (ExportService.Type_ crSvc = "")
              then ServiceTypeClusterIP else ExportService.Type_ crSvc in
            let policy := default "" (ExportService.ExternalTrafficPolicy crSvc) in
            let httpPort :=
              match ExportService.QueryPort crSvc with
              | Some p => ServicePort.with_NodePort p httpPort
              | None => httpPort
              end in
            let queryPort :=
              match ExportService.HttpPort crSvc with
              | Some p => ServicePort.with_NodePort p queryPort
              | None => queryPort
              end in
            (type, policy, httpPort, queryPort)
        | None => (ServiceTypeClusterIP, "", httpPort, queryPort)
        end in
      let spec := ServiceSpec.mk [httpPort; queryPort] feLabels type "" policy in
      Some (Service.mk (controllerutil.SetOwnerReference cr meta) spec)
  end.

(* The source takes a third argument, OprSqlAccount, which its body never
   reads; the reconciler calls it without. *)
Definition MakeFePeerService (cr : DorisCluster.t) : option Service.t :=
  match DorisClusterSpec.FE (DorisCluster.Spec cr) with
  | None => None
  | Some fe =>
      let serviceRef := GetFePeerServiceName cr in
      let feLabels := GetFeComponentLabels cr in
      let meta :=
        ObjectMeta.named (NamespacedName.Name serviceRef)
          (NamespacedName.Namespace serviceRef) feLabels in
      let spec :=
        ServiceSpec.mk
          [ ServicePort.mk "http-port" (GetFeHttpPort cr) 0;
            ServicePort.mk "edit-log-port" (GetFeEditLogPort cr) 0;
            ServicePort.mk "rpc-port" (GetFeRpcPort cr) 0 ]
          feLabels ServiceTypeClusterIP "None" "" in
      Some (Service.mk (controllerutil.SetOwnerReference cr meta) spec)
  end.

Definition MakeFeStatefulSet (cr : DorisCluster.t) : option StatefulSet.t :=
  match DorisClusterSpec.FE (DorisCluster.Spec cr) with
  | None => None
  | Some fe =>
      let spec := DorisCluster.Spec cr in
      let statefulSetRef := GetFeStatefulSetName cr in
      let feLabels := GetFeComponentLabels cr in
      (* volume claim template *)
      let pvcTemplate :=
        PersistentVolumeClaim.mk "fe-meta" [ReadWriteOnce]
          (FESpec.StorageClassName fe)
          (match resource.Storage (FESpec.Requests fe) with
           | Some storageRequest => {[ ResourceStorage := storageRequest ]}
           | None => ∅
           end) in
      (* pod template: volumes *)
      let volumes :=
        ([ Volume.mk "conf"
            (VolumeSource.ConfigMap (NamespacedName.Name (GetFeConfigMapName cr)));
          Volume.mk "fe-log" (VolumeSource.EmptyDir StorageMediumDefault) ]
        ++ FESpec.AdditionalVolumes fe)%list in
      (* pod template: main container *)
      let secretName := NamespacedName.Name (GetOprSqlAccountSecretName cr) in
      let mainContainer :=
        Container.mk "fe" (GetFeImage cr) (DorisClusterSpec.ImagePullPolicy spec)
          (FESpec.Requests fe)
          [ ContainerPort.mk "http-port" (GetFeHttpPort cr);
            ContainerPort.mk "edit-log-port" (GetFeEditLogPort cr);
            ContainerPort.mk "rpc-port" (GetFeRpcPort cr);
            ContainerPort.mk "query-port" (GetFeQueryPort cr) ]
          ([ EnvVar.mk "FE_SVC" (NamespacedName.Name (GetFeServiceName cr)) None;
             EnvVar.mk "ACC_USER" "" (Some (SecretKeySelector.mk secretName "user"));
             EnvVar.mk "ACC_PWD" "" (Some (SecretKeySelector.mk secretName "password")) ]
           ++ FESpec.AdditionalEnvs fe)%list
          ([ VolumeMount.mk "conf" "/etc/apache-doris/fe/";
             VolumeMount.mk "fe-meta" "/opt/apache-doris/fe/doris-meta";
             VolumeMount.mk "fe-log" "/opt/apache-doris/fe/log" ]
           ++ FESpec.AdditionalVolumeMounts fe)%list
          (Some (Probe.mk (GetFeQueryPort cr) 3 1 5 1 3)) in
      let containers := ([mainContainer] ++ FESpec.AdditionalContainers fe)%list in
      let initContainers := FESpec.AdditionalInitContainers fe in
      (* pod template: host alias *)
      let hostAlias :=
        match DorisClusterSpec.HadoopConf spec with
        | Some hc => mergeHostAlias (HadoopConf.Hosts hc) (FESpec.HostAliases fe)
        | None => FESpec.HostAliases fe
        end in
      (* pod template *)
      let podTemplate :=
        PodTemplateSpec.mk
          (ObjectMeta.mk "" "" feLabels
             (Some (<[ PrometheusScrapeAnnoKey := "true" ]>
                      (<[ PrometheusPortAnnoKey := strconv.Itoa (GetFeHttpPort cr) ]>
                         (<[ PrometheusPathAnnoKey := "/metrics" ]> ∅))))
             [])
          (PodSpec.mk volumes initContainers containers
             (DorisClusterSpec.ImagePullSecrets spec)
             (util.StringFallback (FESpec.ServiceAccount fe)
                (DorisClusterSpec.ServiceAccount spec))
             (util.PointerFallback (FESpec.Affinity fe)
                (DorisClusterSpec.Affinity spec))
             (util.ArrayFallback (FESpec.Tolerations fe)
                (DorisClusterSpec.Tolerations spec))
             (util.StringFallback (FESpec.PriorityClassName fe)
                (DorisClusterSpec.PriorityClassName spec))
             hostAlias) in
      (* update strategy *)
      let updateStg :=
        util.PointerFallbackAndDeRefer (FESpec.StatefulSetUpdateStrategy fe)
          (DorisClusterSpec.StatefulSetUpdateStrategy spec)
          RollingUpdateStatefulSetStrategyType in
      (* statefulset *)
      let meta :=
        ObjectMeta.named (NamespacedName.Name statefulSetRef)
          (NamespacedName.Namespace statefulSetRef) feLabels in
      let stsSpec :=
        StatefulSetSpec.mk (Some (FESpec.Replicas fe))
          (NamespacedName.Name (GetFePeerServiceName cr))
          (Some (LabelSelector.mk feLabels))
          [pvcTemplate] podTemplate updateStg in
      Some (StatefulSet.mk (controllerutil.SetOwnerReference cr meta) stsSpec)
  end.

End fe_resources.

End transformer.

(** ** internal/reconciler *)

Module reconciler.
Import types metav1 corev1 appv1 dapi transformer.

(** *** Errors, objects and the object-store client *)

(* A Go [error] value, by its message; [None] is nil. *)
Definition error := string.

(* The typed empty object handed to [Exist] and [DeleteWhenExist]. *)
Inductive Kind := KSecret | KConfigMap | KService | KStatefulSet.

(* A pointer to a built object, as handed to the client; [None] is nil. *)
Inductive Object :=
| OSecret (o : option Secret.t)
| OConfigMap (o : option ConfigMap.t)
| OService (o : option Service.t)
| OStatefulSet (o : option StatefulSet.t).

Module DorisAutoScaler.
Record t := mk { Name : string; Namespace : string }.
End DorisAutoScaler.

(** The methods of [ReconcileContext] the reconciler calls, over a store of
    type [W].  Their code is outside the sources; every theorem on the
    reconciler holds for any client. *)
Class Client (W : Type) := {
  Exist : NamespacedName.t -> Kind -> W -> (bool * option error) * W;
  Create : Object -> W -> option error * W;
  CreateOrUpdate : Object -> W -> option error * W;
  DeleteWhenExist : NamespacedName.t -> Kind -> W -> option error * W;
  FindRefDorisAutoScaler :
    NamespacedName.t -> W -> (option DorisAutoScaler.t * option error) * W
}.

(** One client call with the answer it returned. *)
Inductive Event :=
| EvExist (key : NamespacedName.t) (kind : Kind) (ans : bool * option error)
| EvCreate (obj : Object) (ans : option error)
| EvCreateOrUpdate (obj : Object) (ans : option error)
| EvDeleteWhenExist (key : NamespacedName.t) (kind : Kind) (ans : option error)
| EvFindRefDorisAutoScaler (key : NamespacedName.t)
    (ans : option DorisAutoScaler.t * option error).

(** *** The monad of a reconciliation pass *)

Inductive Panic := NilMapAssignment | NilPointerDereference.

Inductive Outcome (A : Type) :=
| Returned (a : A)
| Panicked (p : Panic).
Arguments Returned {A} a.
Arguments Panicked {A} p.

(* What a computation started on a store yields: how it ended, the store it
   left, and the client calls it made, in order. *)
Record Run (W A : Type) := mkRun {
  outcome : Outcome A;
  final : W;
  events : list Event
}.
Arguments mkRun {W A} outcome final events.
Arguments outcome {W A} r.
Arguments final {W A} r.
Arguments events {W A} r.

Definition M (W A : Type) : Type := W -> Run W A.

Definition ret {W A : Type} (a : A) : M W A := fun w => mkRun (Returned a) w [].

Definition panic {W A : Type} (p : Panic) : M W A := fun w => mkRun (Panicked p) w [].

(* [evs] happened before the run [r] *)
Definition after {W A : Type} (evs : list Event) (r : Run W A) : Run W A :=
  mkRun (outcome r) (final r) (evs ++ events r).

Definition bind {W A B : Type} (c : M W A) (k : A -> M W B) : M W B :=
  fun w =>
    let r := c w in
    match outcome r with
    | Returned a => after (events r) (k a (final r))
    | Panicked p => mkRun (Panicked p) (final r) (events r)
    end.

Definition lift {W A : Type} (o : Outcome A) : M W A := fun w => mkRun o w [].

Notation "'let!' x ':=' c 'in' k" := (bind c (fun x => k))
  (at level 10, x name, c at level 100, k at level 200).

(* A client operation, run on the store and recorded. *)
Definition perform {W A : Type} (op : W -> A * W) (ev : A -> Event) : M W A :=
  fun w =>
    let '(ans, w') := op w in
    mkRun (Returned ans) w' [ev ans].

(** *** Stage results *)

Module ClusterStageRecResult.
Record t := mk {
  Stage : DorisClusterOprStage;
  Status : OprStageStatus;
  Action : OprStageAction;
  Err : option error
}.

Definition Error (r : t) : string :=
  match Err r with
  | Some e => e
  | None => ""
  end.
End ClusterStageRecResult.

Definition clusterStageSucc (stage : DorisClusterOprStage) (action : OprStageAction)
  : ClusterStageRecResult.t :=
  ClusterStageRecResult.mk stage StageResultSucceeded action None.

Definition clusterStageFail (stage : DorisClusterOprStage) (action : OprStageAction)
  (err : error) : ClusterStageRecResult.t :=
  ClusterStageRecResult.mk stage StageResultSucceeded action (Some err).

(** *** Transformer functions of the other roles

    The builders and key functions of BE, CN, Broker and the operator
    account secret, and the key functions of FE, are in transformer files
    outside the sources: parameters. *)
Class Resources := {
  GetOprSqlAccountSecretKey : NamespacedName.t -> NamespacedName.t;
  MakeOprSqlAccountSecret : DorisCluster.t -> option Secret.t;
  GetFeStatefulSetKey : NamespacedName.t -> NamespacedName.t;
  GetFeServiceKey : NamespacedName.t -> NamespacedName.t;
  GetFePeerServiceKey : NamespacedName.t -> NamespacedName.t;
  GetFeConfigMapKey : NamespacedName.t -> NamespacedName.t;
  MakeBeConfigMap : DorisCluster.t -> option ConfigMap.t;
  MakeBeService : DorisCluster.t -> option Service.t;
  MakeBePeerService : DorisCluster.t -> option Service.t;
  MakeBeStatefulSet : DorisCluster.t -> option StatefulSet.t;
  GetBeStatefulSetKey : DorisCluster.t -> NamespacedName.t;
  GetBeServiceKey : NamespacedName.t -> NamespacedName.t;
  GetBePeerServiceKey : NamespacedName.t -> NamespacedName.t;
  GetBeConfigMapKey : NamespacedName.t -> NamespacedName.t;
  MakeCnConfigMap : DorisCluster.t -> option ConfigMap.t;
  MakeCnService : DorisCluster.t -> option Service.t;
  MakeCnPeerService : DorisCluster.t -> option Service.t;
  MakeCnStatefulSet : DorisCluster.t -> option StatefulSet.t;
  GetCnStatefulSetKey : NamespacedName.t -> NamespacedName.t;
  GetCnServiceKey : NamespacedName.t -> NamespacedName.t;
  GetCnPeerServiceKey : NamespacedName.t -> NamespacedName.t;
  GetCnConfigMapKey : NamespacedName.t -> NamespacedName.t;
  MakeBrokerConfigMap : DorisCluster.t -> option ConfigMap.t;
  MakeBrokerPeerService : DorisCluster.t -> option Service.t;
  MakeBrokerStatefulSet : DorisCluster.t -> option StatefulSet.t;
  GetBrokerStatefulSetKey : NamespacedName.t -> NamespacedName.t;
  GetBrokerPeerServiceKey : NamespacedName.t -> NamespacedName.t;
  GetBrokerConfigMapKey : NamespacedName.t -> NamespacedName.t
}.

Section stages.
Context `{Helpers} `{Resources} {W : Type} `{Client W}.

Definition FeConfHashAnnotationKey : string := Group +:+ "/fe-config".
Definition BeConfHashAnnotationKey : string := Group +:+ "/be-config".
Definition CnConfHashAnnotationKey : string := Group +:+ "/cn-config".
Definition BrokerConfHashAnnotationKey : string := Group +:+ "/broker-config".

(* r.Exist, r.Create, r.CreateOrUpdate, r.DeleteWhenExist,
   r.FindRefDorisAutoScaler *)
Definition rExist (key : NamespacedName.t) (kind : Kind) : M W (bool * option error) :=
  perform (Exist key kind) (EvExist key kind).

Definition rCreate (obj : Object) : M W (option error) :=
  perform (Create obj) (EvCreate obj).

Definition rCreateOrUpdate (obj : Object) : M W (option error) :=
  perform (CreateOrUpdate obj) (EvCreateOrUpdate obj).

Definition rDeleteWhenExist (key : NamespacedName.t) (kind : Kind) : M W (option error) :=
  perform (DeleteWhenExist key kind) (EvDeleteWhenExist key kind).

Definition rFindRefDorisAutoScaler (key : NamespacedName.t)
  : M W (option DorisAutoScaler.t * option error) :=
  perform (FindRefDorisAutoScaler key) (EvFindRefDorisAutoScaler key).

(* The digest written by a role's apply path: [util.MapMd5(configMap.Data)] *)
Definition ConfigHash (configMap : ConfigMap.t) : string :=
  MapMd5 (ConfigMap.Data configMap).

(** The statement [statefulSet.Annotations[key] = util.MapMd5(configMap.Data)]:
    it dereferences both pointers and assigns into the annotation map of the
    workload set's own metadata.  Assigning into a nil map is a runtime
    panic. *)
Definition stampConfHash (key : string) (configMap : option ConfigMap.t)
  (statefulSet : option StatefulSet.t) : Outcome StatefulSet.t :=
  match statefulSet, configMap with
  | Some sts, Some cm =>
      match ObjectMeta.Annotations (StatefulSet.Meta sts) with
      | Some annotations =>
          Returned
            (StatefulSet.with_Meta
               (ObjectMeta.with_Annotations
                  (Some (<[ key := ConfigHash cm ]> annotations))
                  (StatefulSet.Meta sts))
               sts)
      | None => Panicked NilMapAssignment
      end
  | _, _ => Panicked NilPointerDereference
  end.

(* [if err := call; err != nil { return fail(err) }] followed by [k] *)
Definition orFail (call : M W (option error)) (fail : error -> ClusterStageRecResult.t)
  (k : M W ClusterStageRecResult.t) : M W ClusterStageRecResult.t :=
  let! err := call in
  match err with
  | Some err => ret (fail err)
  | None => k
  end.

(** reconcile secret object that using to store the sql query account info
    that used by doris-operator. *)
Definition recOprAccountSecret (cr : DorisCluster.t) : M W ClusterStageRecResult.t :=
  let secretRef := GetOprSqlAccountSecretKey (DorisCluster.ObjKey cr) in
  let action := StageActionApply in
  (* check if secret exists *)
  let! ans := rExist secretRef KSecret in
  match snd ans with
  | Some err => ret (clusterStageFail StageSqlAccountSecret action err)
  | None =>
      (* create secret if not exists *)
      if negb (fst ans) then
        let newSecret := MakeOprSqlAccountSecret cr in
        orFail (rCreate (OSecret newSecret))
          (clusterStageFail StageSqlAccountSecret action)
          (ret (clusterStageSucc StageSqlAccountSecret action))
      else ret (clusterStageSucc StageSqlAccountSecret action)
  end.

(** reconcile Doris FE component resources. *)
Definition recFeResources (cr : DorisCluster.t) : M W ClusterStageRecResult.t :=
  (* apply resources *)
  let applyRes : M W ClusterStageRecResult.t :=
    let action := StageActionApply in
    (* fe configmap *)
    let configMap := MakeFeConfigMap cr in
    orFail (rCreateOrUpdate (OConfigMap configMap))
      (clusterStageFail StageFeConfigmap action) (
    (* fe service *)
    let service := MakeFeService cr in
    orFail (rCreateOrUpdate (OService service))
      (clusterStageFail StageFeService action) (
    let peerService := MakeFePeerService cr in
    orFail (rCreateOrUpdate (OService peerService))
      (clusterStageFail StageFeService action) (
    (* fe statefulset *)
    let statefulSet := MakeFeStatefulSet cr in
    let! statefulSet :=
      lift (stampConfHash FeConfHashAnnotationKey configMap statefulSet) in
    orFail (rCreateOrUpdate (OStatefulSet (Some statefulSet)))
      (clusterStageFail StageFeStatefulSet action) (
    ret (clusterStageSucc StageFe action))))) in
  (* delete resources *)
  let deleteRes : M W ClusterStageRecResult.t :=
    let action := StageActionDelete in
    (* fe statefulset *)
    let statefulsetRef := GetFeStatefulSetKey (DorisCluster.ObjKey cr) in
    orFail (rDeleteWhenExist statefulsetRef KStatefulSet)
      (clusterStageFail StageFeConfigmap action) (
    (* fe service *)
    let serviceRef := GetFeServiceKey (DorisCluster.ObjKey cr) in
    orFail (rDeleteWhenExist serviceRef KService)
      (clusterStageFail StageFeConfigmap action) (
    let peerServiceRef := GetFePeerServiceKey (DorisCluster.ObjKey cr) in
    orFail (rDeleteWhenExist peerServiceRef KService)
      (clusterStageFail StageFeConfigmap action) (
    (* fe configmap *)
    let configMapRef := GetFeConfigMapKey (DorisCluster.ObjKey cr) in
    orFail (rDeleteWhenExist configMapRef KConfigMap)
      (clusterStageFail StageFeConfigmap action) (
    ret (clusterStageSucc StageFe action))))) in
  util.Elvis (bool_decide (is_Some (DorisClusterSpec.FE (DorisCluster.Spec cr))))
    applyRes deleteRes.

(** reconcile Doris BE component resources. *)
Definition recBeResources (cr : DorisCluster.t) : M W ClusterStageRecResult.t :=
  (* apply resources *)
  let applyRes : M W ClusterStageRecResult.t :=
    let action := StageActionApply in
    (* be configmap *)
    let configMap := MakeBeConfigMap cr in
    orFail (rCreateOrUpdate (OConfigMap configMap))
      (clusterStageFail StageBeConfigmap action) (
    (* be service *)
    let service := MakeBeService cr in
    orFail (rCreateOrUpdate (OService service))
      (clusterStageFail StageBeService action) (
    let peerService := MakeBePeerService cr in
    orFail (rCreateOrUpdate (OService peerService))
      (clusterStageFail StageBeService action) (
    (* be statefulset *)
    let statefulSet := MakeBeStatefulSet cr in
    let! statefulSet :=
      lift (stampConfHash BeConfHashAnnotationKey configMap statefulSet) in
    orFail (rCreateOrUpdate (OStatefulSet (Some statefulSet)))
      (clusterStageFail StageBeStatefulSet action) (
    ret (clusterStageSucc StageBe action))))) in
  (* delete resources *)
  let deleteRes : M W ClusterStageRecResult.t :=
    let action := StageActionDelete in
    (* be statefulset *)
    let statefulsetRef := GetBeStatefulSetKey cr in
    orFail (rDeleteWhenExist statefulsetRef KStatefulSet)
      (clusterStageFail StageBeConfigmap action) (
    (* be service *)
    let serviceRef := GetBeServiceKey (DorisCluster.ObjKey cr) in
    orFail (rDeleteWhenExist serviceRef KService)
      (clusterStageFail StageBeConfigmap action) (
    let peerServiceRef := GetBePeerServiceKey (DorisCluster.ObjKey cr) in
    orFail (rDeleteWhenExist peerServiceRef KService)
      (clusterStageFail StageBeConfigmap action) (
    (* be configmap *)
    let configMapRef := GetBeConfigMapKey (DorisCluster.ObjKey cr) in
    orFail (rDeleteWhenExist configMapRef KConfigMap)
      (clusterStageFail StageBeConfigmap action) (
    ret (clusterStageSucc StageBe action))))) in
  util.Elvis (bool_decide (is_Some (DorisClusterSpec.BE (DorisCluster.Spec cr))))
    applyRes deleteRes.

(** reconcile Doris CN component resources. *)
Definition recCnResources (cr : DorisCluster.t) : M W ClusterStageRecResult.t :=
  (* apply resources *)
  let applyRes : M W ClusterStageRecResult.t :=
    let action := StageActionApply in
    (* cn configmap *)
    let configMap := MakeCnConfigMap cr in
    orFail (rCreateOrUpdate (OConfigMap configMap))
      (clusterStageFail StageCnConfigmap action) (
    (* cn service *)
    let service := MakeCnService cr in
    orFail (rCreateOrUpdate (OService service))
      (clusterStageFail StageCnService action) (
    let peerService := MakeCnPeerService cr in
    orFail (rCreateOrUpdate (OService peerService))
      (clusterStageFail StageCnService action) (
    (* cn statefulset *)
    let statefulSet := MakeCnStatefulSet cr in
    let! statefulSet :=
      lift (stampConfHash CnConfHashAnnotationKey configMap statefulSet) in
    (* when the corresponding DorisAutoScaler resource exists,
       the replica of statefulset would not be overridden *)
    let! found := rFindRefDorisAutoScaler (DorisCluster.ObjKey cr) in
    match snd found with
    | Some err => ret (clusterStageFail StageCnStatefulSet action err)
    | None =>
        let statefulSet :=
          match fst found with
          | Some autoScaler =>
              StatefulSet.with_Spec
                (StatefulSetSpec.with_Replicas None (StatefulSet.Spec statefulSet))
                statefulSet
          | None => statefulSet
          end in
        orFail (rCreateOrUpdate (OStatefulSet (Some statefulSet)))
          (clusterStageFail StageCnStatefulSet action) (
        ret (clusterStageSucc StageCn action))
    end))) in
  (* delete resources *)
  let deleteRes : M W ClusterStageRecResult.t :=
    let action := StageActionDelete in
    (* cn statefulset *)
    let statefulsetRef := GetCnStatefulSetKey (DorisCluster.ObjKey cr) in
    orFail (rDeleteWhenExist statefulsetRef KStatefulSet)
      (clusterStageFail StageCnConfigmap action) (
    (* cn service *)
    let serviceRef := GetCnServiceKey (DorisCluster.ObjKey cr) in
    orFail (rDeleteWhenExist serviceRef KService)
      (clusterStageFail StageCnConfigmap action) (
    let peerServiceRef := GetCnPeerServiceKey (DorisCluster.ObjKey cr) in
    orFail (rDeleteWhenExist peerServiceRef KService)
      (clusterStageFail StageCnConfigmap action) (
    (* cn configmap *)
    let configMapRef := GetCnConfigMapKey (DorisCluster.ObjKey cr) in
    orFail (rDeleteWhenExist configMapRef KConfigMap)
      (clusterStageFail StageCnConfigmap action) (
    ret (clusterStageSucc StageCn action))))) in
  util.Elvis (bool_decide (is_Some (DorisClusterSpec.CN (DorisCluster.Spec cr))))
    applyRes deleteRes.

(** Reconcile Doris Broker component resources. *)
Definition recBrokerResources (cr : DorisCluster.t) : M W ClusterStageRecResult.t :=
  (* apply resources *)
  let applyRes : M W ClusterStageRecResult.t :=
    let action := StageActionApply in
    (* broker configmap *)
    let configMap := MakeBrokerConfigMap cr in
    orFail (rCreateOrUpdate (OConfigMap configMap))
      (clusterStageFail StageBrokerConfigmap action) (
    (* broker service *)
    let peerService := MakeBrokerPeerService cr in
    orFail (rCreateOrUpdate (OService peerService))
      (clusterStageFail StageBrokerService action) (
    (* broker statefulset *)
    let statefulSet := MakeBrokerStatefulSet cr in
    let! statefulSet :=
      lift (stampConfHash BrokerConfHashAnnotationKey configMap statefulSet) in
    orFail (rCreateOrUpdate (OStatefulSet (Some statefulSet)))
      (clusterStageFail StageBrokerStatefulSet action) (
    ret (clusterStageSucc StageBroker action)))) in
  (* delete resources *)
  let deleteRes : M W ClusterStageRecResult.t :=
    let action := StageActionDelete in
    (* broker statefulset *)
    let statefulsetRef := GetBrokerStatefulSetKey (DorisCluster.ObjKey cr) in
    orFail (rDeleteWhenExist statefulsetRef KStatefulSet)
      (clusterStageFail StageBrokerConfigmap action) (
    (* broker service *)
    let peerServiceRef := GetBrokerPeerServiceKey (DorisCluster.ObjKey cr) in
    orFail (rDeleteWhenExist peerServiceRef KService)
      (clusterStageFail StageBrokerConfigmap action) (
    (* broker configmap *)
    let configMapRef := GetBrokerConfigMapKey (DorisCluster.ObjKey cr) in
    orFail (rDeleteWhenExist configMapRef KConfigMap)
      (clusterStageFail StageBrokerConfigmap action) (
    ret (clusterStageSucc StageBroker action)))) in
  util.Elvis (bool_decide (is_Some (DorisClusterSpec.Broker (DorisCluster.Spec cr))))
    applyRes deleteRes.

(** The loop of [Reconcile]: call the stage functions in order and return
    the first result that carries an error. *)
Fixpoint runStages (stages : list (M W ClusterStageRecResult.t))
  : M W ClusterStageRecResult.t :=
  match stages with
  | [] =>
      ret (ClusterStageRecResult.mk StageComplete StageResultSucceeded
             StageActionNone None)
  | fn :: rest =>
      let! result := fn in
      match ClusterStageRecResult.Err result with
      | Some _ => ret result
      | None => runStages rest
      end
  end.

Definition stages (cr : DorisCluster.t) : list (M W ClusterStageRecResult.t) :=
  [ recOprAccountSecret cr;
    recFeResources cr;
    recBeResources cr;
    recCnResources cr;
    recBrokerResources cr ].

(** Reconcile all sub components *)
Definition Reconcile (cr : DorisCluster.t) : M W ClusterStageRecResult.t :=
  runStages (stages cr).

(** *** Vocabulary of the properties *)

(* The stages of [fns], run in order from store [w], all returned without an
   error, left the store [w'] and made the calls [evs]. *)
Inductive runClean :
  list (M W ClusterStageRecResult.t) -> W -> W -> list Event -> Prop :=
| runClean_nil w : runClean [] w w []
| runClean_cons fn rest w w1 w2 r evs1 evs2 :
    fn w = mkRun (Returned r) w1 evs1 ->
    ClusterStageRecResult.Err r = None ->
    runClean rest w1 w2 evs2 ->
    runClean (fn :: rest) w w2 (evs1 ++ evs2)%list.

(* The result [Reconcile] returns after five clean stages. *)
Definition complete : ClusterStageRecResult.t :=
  ClusterStageRecResult.mk StageComplete StageResultSucceeded StageActionNone None.

(* The workload set the CN apply path hands to the client, from the stamped
   one and the answer of the autoscaler lookup: with a binding found, the
   stamped one with no replica count; with none, the stamped one. *)
Definition cnApplied (found : option DorisAutoScaler.t) (stamped : StatefulSet.t)
  : StatefulSet.t :=
  match found with
  | Some _ =>
      let spec := StatefulSet.Spec stamped in
      StatefulSet.mk (StatefulSet.Meta stamped)
        (StatefulSetSpec.mk None
           (StatefulSetSpec.ServiceName spec) (StatefulSetSpec.Selector spec)
           (StatefulSetSpec.VolumeClaimTemplates spec)
           (StatefulSetSpec.Template spec) (StatefulSetSpec.UpdateStrategy spec))
  | None => stamped
  end.

(* [applied] is the workload set built by [statefulSet] with the digest of
   the data of the bundle built by [configMap] stored under [key] in the
   annotation map of its own metadata, a map the builder put there.  Name,
   namespace, labels and owner references are as built, and so is the whole
   spec, the pod template within it. *)
Definition stampedOnObject (key : string) (configMap : option ConfigMap.t)
  (statefulSet : option StatefulSet.t) (applied : StatefulSet.t) : Prop :=
  exists cm built annotations,
    configMap = Some cm /\ statefulSet = Some built
    /\ ObjectMeta.Annotations (StatefulSet.Meta built) = Some annotations
    /\ applied =
       let meta := StatefulSet.Meta built in
       StatefulSet.mk
         (ObjectMeta.mk (ObjectMeta.Name meta) (ObjectMeta.Namespace meta)
            (ObjectMeta.Labels meta)
            (Some (<[ key := MapMd5 (ConfigMap.Data cm) ]> annotations))
            (ObjectMeta.OwnerReferences meta))
         (StatefulSet.Spec built).

End stages.

(* The error a client call answered with; [None] when it succeeded. *)
Definition eventError (ev : Event) : option error :=
  match ev with
  | EvExist _ _ ans => snd ans
  | EvCreate _ ans => ans
  | EvCreateOrUpdate _ ans => ans
  | EvDeleteWhenExist _ _ ans => ans
  | EvFindRefDorisAutoScaler _ ans => snd ans
  end.

Definition isDelete (ev : Event) : bool :=
  match ev with
  | EvDeleteWhenExist _ _ _ => true
  | _ => false
  end.

(* A role stage took the path its sub-spec [sub] calls for: with the role
   absent it only deletes and reports the action delete, with the role
   declared it deletes nothing and reports the action apply. *)
Definition pathFollows {A W : Type} (sub : option A)
  (run : Run W ClusterStageRecResult.t) : Prop :=
  match sub with
  | None =>
      Forall (fun ev => isDelete ev = true) (events run)
      /\ (forall r, outcome run = Returned r ->
                    ClusterStageRecResult.Action r = StageActionDelete)
  | Some _ =>
      Forall (fun ev => isDelete ev = false) (events run)
      /\ (forall r, outcome run = Returned r ->
                    ClusterStageRecResult.Action r = StageActionApply)
  end.

(* A stage that returned reports the answer of its last client call, and
   every call before that one succeeded. *)
Definition reportsLastCall {W : Type} (run : Run W ClusterStageRecResult.t) : Prop :=
  forall r,
    outcome run = Returned r ->
    last (events run) ≫= eventError = ClusterStageRecResult.Err r
    /\ Forall (fun ev => eventError ev = None) (removelast (events run)).

End reconciler.

(** ** internal/util: merged errors

    The second half of the reconciler's source file. *)

Module util_errors.
Import reconciler.

(* strings.Join *)
Fixpoint Join (elems : list string) (sep : string) : string :=
  match elems with
  | [] => ""
  | [s] => s
  | s :: rest => s +:+ sep +:+ Join rest sep
  end.

(** MultiError is a list of errors.  An entry of the slice may be nil. *)
Module MultiError.
Record t := mk { Errors : list (option error) }.

(* The method has a pointer receiver: [None] is the nil pointer.  Reading
   [e.Errors] through nil, and calling [Error] on a nil entry, panic. *)
Definition Error (e : option t) : Outcome string :=
  match e with
  | None => Panicked NilPointerDereference
  | Some e =>
      let errStrs :=
        foldl (fun errStrs err =>
                 match errStrs, err with
                 | Returned errStrs, Some err => Returned (errStrs ++ [err])%list
                 | Returned _, None => Panicked NilPointerDereference
                 | Panicked p, _ => Panicked p
                 end)
          (Returned []) (Errors e) in
      match errStrs with
      | Returned errStrs => Returned (Join errStrs "; ")
      | Panicked p => Panicked p
      end
  end.
End MultiError.

(** MergeErrors merges multiple errors into one. *)
Definition MergeErrors (errs : list (option error)) : option MultiError.t :=
  let errorList :=
    foldl (fun errorList err =>
             match err with
             | Some _ => (errorList ++ [err])%list
             | None => errorList
             end)
      [] errs in
  if decide (length errorList = 0%nat) then None
  else Some (MultiError.mk errorList).

(** MultiTaggedError is a list of errors with tags. *)
Module MultiTaggedError.
Record t := mk { Errors : gmap string (option error) }.
End MultiTaggedError.

(** MergeErrorsWithTag merges multiple errors into one with tags. *)
Definition MergeErrorsWithTag (errors : gmap string (option error))
  : option MultiTaggedError.t :=
  let errMap :=
    map_fold (fun tag err (errMap : gmap string (option error)) =>
                match err with
                | Some _ => <[ tag := err ]> errMap
                | None => errMap
                end)
      ∅ errors in
  if decide (size errMap = 0%nat) then None
  else Some (MultiTaggedError.mk errMap).

(* The messages a merged error holds; none for nil. *)
Definition messages (e : option MultiError.t) : list error :=
  match e with
  | Some e => omap id (MultiError.Errors e)
  | None => []
  end.

End util_errors.

(** ** A reference environment

    Concrete stand-ins for what lies outside the sources, used to run the
    reconciler on explicit inputs. *)

Module sample.
Import types metav1 corev1 appv1 dapi transformer reconciler.

(** Modelled from the spec: [getPortValueFromRawConf] is missing; a port is
    read from a named key of the role's free-form configuration map and
    falls back to the compiled-in default when the key is absent (or is not
    a number). *)
Definition getPortValueFromRawConf (conf : gmap string string) (key : string)
  (defaultPort : Z) : Z :=
  match conf !! key with
  | Some v =>
      match DecimalString.NilZero.int_of_string v with
      | Some n => Z.of_int n
      | None => defaultPort
      end
  | None => defaultPort
  end.

(* the characters that a key=value line gives a meaning to *)
Definition backslash : Ascii.ascii := Eval cbv in Ascii.ascii_of_nat 92.
Definition equalsSign : Ascii.ascii := Eval cbv in Ascii.ascii_of_nat 61.
Definition lineFeed : Ascii.ascii := Eval cbv in Ascii.ascii_of_nat 10.

Definition newline : string := String lineFeed "".

(* A character as it is written inside a key or a value: the backslash, the
   separator and the line break are written as escapes. *)
Definition escapeChar (c : Ascii.ascii) : string :=
  if decide (c = backslash) then "\\"
  else if decide (c = equalsSign) then "\u003D"
  else if decide (c = lineFeed) then "\n"
  else String c "".

Fixpoint escape (s : string) : string :=
  match s with
  | "" => ""
  | String c rest => escapeChar c +:+ escape rest
  end.

Definition renderEntry (kv : string * string) (rest : string) : string :=
  escape kv.1 +:+ String equalsSign (escape kv.2 +:+ String lineFeed rest).

(** Modelled from the spec: [dumpJavaBasedComponentConf] is missing; the
    content of a bundle is generated from the role's key/value configuration
    entries, and a change of any key changes it.  The stand-in writes one
    key=value line per entry, in the manner of a Java properties file, the
    separator and the line break escaped inside keys and values. *)
Definition renderEntries (m : gmap string string) : string :=
  foldr renderEntry "" (map_to_list m).

(* The character [d] occurs in [s]. *)
Fixpoint occurs (d : Ascii.ascii) (s : string) : Prop :=
  match s with
  | "" => False
  | String c rest => c = d \/ occurs d rest
  end.

(** Modelled from the spec: [util.MergeMaps] is missing; the bundle's own
    entries are merged with the shared auxiliary configuration, the second
    map winning on a common key. *)
Definition MergeMaps (m1 m2 : gmap string string) : gmap string string := m2 ∪ m1.

(** Modelled from the spec: [util.MapMd5] is missing; ConfigHash is a
    deterministic digest of the bundle's contents, under which identical
    content gives an identical hash and any content change a new hash.  The
    stand-in is the decimal text of the map's code number, an idealised
    digest under which different contents never collide. *)
Definition MapMd5 (m : gmap string string) : string := pretty (encode m).

#[export] Instance helpers : Helpers := {|
  Group := "al-assad.github.io";
  MakeResourceLabels := fun name component =>
    <[ "app.kubernetes.io/component" := component ]>
      (<[ "app.kubernetes.io/instance" := name ]>
         (<[ "app.kubernetes.io/name" := "doris-cluster" ]> ∅));
  transformer.getPortValueFromRawConf := getPortValueFromRawConf;
  dumpJavaBasedComponentConf := renderEntries;
  mergeHostAlias := fun a b => (a ++ b)%list;
  GetOprSqlAccountSecretName := fun cr =>
    NamespacedName.mk (DorisCluster.Namespace cr)
      (DorisCluster.Name cr +:+ "-opr-account");
  GetFeImage := fun _ => "apache/doris:fe";
  PrometheusPathAnnoKey := "prometheus.io/path";
  PrometheusPortAnnoKey := "prometheus.io/port";
  PrometheusScrapeAnnoKey := "prometheus.io/scrape";
  transformer.MergeMaps := MergeMaps;
  transformer.MapMd5 := MapMd5
|}.

(* "<cluster-name>-<suffix>" in the cluster's namespace *)
Definition suffixed (suffix : string) (key : NamespacedName.t) : NamespacedName.t :=
  NamespacedName.mk (NamespacedName.Namespace key)
    (NamespacedName.Name key +:+ suffix).

Definition roleMeta (cr : DorisCluster.t) (role suffix : string) : ObjectMeta.t :=
  controllerutil.SetOwnerReference cr
    (ObjectMeta.named (DorisCluster.Name cr +:+ suffix)
       (DorisCluster.Namespace cr)
       (MakeResourceLabels (DorisCluster.Name cr) role)).

Definition roleConfigMap (role : string) (sub : option RoleSpec.t)
  (cr : DorisCluster.t) : option ConfigMap.t :=
  match sub with
  | None => None
  | Some rs =>
      Some (ConfigMap.mk (roleMeta cr role ("-" +:+ role +:+ "-config"))
              {[ role +:+ ".conf" := renderEntries (RoleSpec.Configs rs) ]})
  end.

Definition roleService (role suffix clusterIP : string) (port : Z)
  (sub : option RoleSpec.t) (cr : DorisCluster.t) : option Service.t :=
  match sub with
  | None => None
  | Some rs =>
      Some (Service.mk (roleMeta cr role suffix)
              (ServiceSpec.mk [ServicePort.mk "heartbeat-port" port 0]
                 (MakeResourceLabels (DorisCluster.Name cr) role)
                 ServiceTypeClusterIP clusterIP ""))
  end.

(* A workload set that the stamping of the apply path can write to: its own
   annotation map is initialised (empty), and its pod template has
   annotations of its own. *)
Definition roleStatefulSet (role : string) (sub : option RoleSpec.t)
  (cr : DorisCluster.t) : option StatefulSet.t :=
  match sub with
  | None => None
  | Some rs =>
      let labels := MakeResourceLabels (DorisCluster.Name cr) role in
      let meta :=
        ObjectMeta.with_Annotations (Some ∅) (roleMeta cr role ("-" +:+ role)) in
      let podTemplate :=
        PodTemplateSpec.mk
          (ObjectMeta.mk "" "" labels
             (Some {[ PrometheusScrapeAnnoKey := "true" ]}) [])
          (PodSpec.mk [] []
             [Container.mk role ("apache/doris:" +:+ role) "" ∅ [] [] [] None]
             [] "" None [] "" []) in
      Some (StatefulSet.mk meta
              (StatefulSetSpec.mk (Some (RoleSpec.Replicas rs))
                 (DorisCluster.Name cr +:+ "-" +:+ role +:+ "-peer")
                 (Some (LabelSelector.mk labels)) [] podTemplate
                 RollingUpdateStatefulSetStrategyType))
  end.

Definition BE (cr : DorisCluster.t) := DorisClusterSpec.BE (DorisCluster.Spec cr).
Definition CN (cr : DorisCluster.t) := DorisClusterSpec.CN (DorisCluster.Spec cr).
Definition Broker (cr : DorisCluster.t) := DorisClusterSpec.Broker (DorisCluster.Spec cr).

(** Modelled from the spec: the transformer files of BE, CN, Broker and of
    the operator account secret are missing.  Object identities are
    "<cluster-name>-<role>", "<cluster-name>-<role>-peer" and
    "<cluster-name>-<role>-config"; a builder returns nil when its role is
    undeclared. *)
#[export] Instance resources : Resources := {|
  GetOprSqlAccountSecretKey := suffixed "-opr-account";
  MakeOprSqlAccountSecret := fun cr =>
    Some (Secret.mk (roleMeta cr "operator" "-opr-account")
            (<[ "password" := "generated" ]> (<[ "user" := "k8sopr" ]> ∅)));
  GetFeStatefulSetKey := suffixed "-fe";
  GetFeServiceKey := suffixed "-fe";
  GetFePeerServiceKey := suffixed "-fe-peer";
  GetFeConfigMapKey := suffixed "-fe-config";
  MakeBeConfigMap := fun cr => roleConfigMap "be" (BE cr) cr;
  MakeBeService := fun cr => roleService "be" "-be" "" 9050 (BE cr) cr;
  MakeBePeerService := fun cr => roleService "be" "-be-peer" "None" 9050 (BE cr) cr;
  MakeBeStatefulSet := fun cr => roleStatefulSet "be" (BE cr) cr;
  GetBeStatefulSetKey := fun cr => suffixed "-be" (DorisCluster.ObjKey cr);
  GetBeServiceKey := suffixed "-be";
  GetBePeerServiceKey := suffixed "-be-peer";
  GetBeConfigMapKey := suffixed "-be-config";
  MakeCnConfigMap := fun cr => roleConfigMap "cn" (CN cr) cr;
  MakeCnService := fun cr => roleService "cn" "-cn" "" 9050 (CN cr) cr;
  MakeCnPeerService := fun cr => roleService "cn" "-cn-peer" "None" 9050 (CN cr) cr;
  MakeCnStatefulSet := fun cr => roleStatefulSet "cn" (CN cr) cr;
  GetCnStatefulSetKey := suffixed "-cn";
  GetCnServiceKey := suffixed "-cn";
  GetCnPeerServiceKey := suffixed "-cn-peer";
  GetCnConfigMapKey := suffixed "-cn-config";
  MakeBrokerConfigMap := fun cr => roleConfigMap "broker" (Broker cr) cr;
  MakeBrokerPeerService := fun cr =>
    roleService "broker" "-broker-peer" "None" 8000 (Broker cr) cr;
  MakeBrokerStatefulSet := fun cr => roleStatefulSet "broker" (Broker cr) cr;
  GetBrokerStatefulSetKey := suffixed "-broker";
  GetBrokerPeerServiceKey := suffixed "-broker-peer";
  GetBrokerConfigMapKey := suffixed "-broker-config"
|}.

(** *** An in-memory object store *)

Definition kindName (k : Kind) : string :=
  match k with
  | KSecret => "Secret"
  | KConfigMap => "ConfigMap"
  | KService => "Service"
  | KStatefulSet => "StatefulSet"
  end.

Definition slot (kind : Kind) (key : NamespacedName.t) : string * (string * string) :=
  (kindName kind, (NamespacedName.Namespace key, NamespacedName.Name key)).

Definition metaKey (m : ObjectMeta.t) : NamespacedName.t :=
  NamespacedName.mk (ObjectMeta.Namespace m) (ObjectMeta.Name m).

(* kind and identity of a non-nil object *)
Definition slotOf (obj : Object) : option (string * (string * string)) :=
  match obj with
  | OSecret (Some s) => Some (slot KSecret (metaKey (Secret.Meta s)))
  | OConfigMap (Some c) => Some (slot KConfigMap (metaKey (ConfigMap.Meta c)))
  | OService (Some s) => Some (slot KService (metaKey (Service.Meta s)))
  | OStatefulSet (Some s) => Some (slot KStatefulSet (metaKey (StatefulSet.Meta s)))
  | _ => None
  end.

(* failures to inject, per operation; [None] everywhere is a healthy store *)
Record Faults := mkFaults {
  failExist : NamespacedName.t -> Kind -> option error;
  failWrite : Object -> option error;
  failDelete : NamespacedName.t -> Kind -> option error;
  failFind : option error
}.

Record World := mkWorld {
  objects : gmap (string * (string * string)) Object;
  autoscaler : option DorisAutoScaler.t;
  faults : Faults
}.

Definition withObjects (objs : gmap (string * (string * string)) Object)
  (w : World) : World :=
  mkWorld objs (autoscaler w) (faults w).

(** Modelled from the spec: the object store client is an external
    collaborator with the contract [exists(ref)], [create(obj)],
    [createOrUpdate(obj)] and [deleteIfExists(ref, kind)], the last one
    idempotent (deleting an absent object is not an error), and
    [findBoundAutoscaler(clusterIdentity)]. *)
#[export] Instance client : Client World := {|
  Exist := fun key kind w =>
    match failExist (faults w) key kind with
    | Some e => ((false, Some e), w)
    | None => ((bool_decide (is_Some (objects w !! slot kind key)), None), w)
    end;
  Create := fun obj w =>
    match failWrite (faults w) obj, slotOf obj with
    | Some e, _ => (Some e, w)
    | None, None => (Some "nil object", w)
    | None, Some k =>
        match objects w !! k with
        | Some _ => (Some "already exists", w)
        | None => (None, withObjects (<[ k := obj ]> (objects w)) w)
        end
    end;
  CreateOrUpdate := fun obj w =>
    match failWrite (faults w) obj, slotOf obj with
    | Some e, _ => (Some e, w)
    | None, None => (Some "nil object", w)
    | None, Some k => (None, withObjects (<[ k := obj ]> (objects w)) w)
    end;
  DeleteWhenExist := fun key kind w =>
    match failDelete (faults w) key kind with
    | Some e => (Some e, w)
    | None => (None, withObjects (delete (slot kind key) (objects w)) w)
    end;
  FindRefDorisAutoScaler := fun key w =>
    match failFind (faults w) with
    | Some e => ((None, Some e), w)
    | None => ((autoscaler w, None), w)
    end
|}.

Definition healthy : Faults :=
  mkFaults (fun _ _ => None) (fun _ => None) (fun _ _ => None) None.

Definition emptyWorld : World := mkWorld ∅ None healthy.

(** *** Cluster specifications *)

Definition feSpec (replicas : Z) (configs : gmap string string)
  (svc : option ExportService.t) : FESpec.t :=
  FESpec.mk replicas configs svc None ∅ [] [] [] [] [] [] "" None [] "" None.

Definition clusterSpec (fe : option FESpec.t) (be cn broker : option RoleSpec.t)
  (hadoop : option HadoopConf.t) : DorisClusterSpec.t :=
  DorisClusterSpec.mk fe be cn broker hadoop "IfNotPresent" [] "" None [] "" None.

Definition cluster (spec : DorisClusterSpec.t) : DorisCluster.t :=
  DorisCluster.mk "doris" "default" spec.

(* no role declared *)
Definition crNone : DorisCluster.t :=
  cluster (clusterSpec None None None None None).

(* FE alone, with an http port of its own *)
Definition crFe : DorisCluster.t :=
  cluster (clusterSpec (Some (feSpec 3 {[ "http_port" := "8031" ]} None))
             None None None None).

(* FE with an rpc and a query port of its own and both NodePort overrides *)
Definition crPorts : DorisCluster.t :=
  cluster
    (clusterSpec
       (Some (feSpec 1
                (<[ "rpc_port" := "9021" ]> {[ "query_port" := "9031" ]})
                (Some (ExportService.mk "NodePort" None (Some 30080) (Some 30090)))))
       None None None None).

(* CN alone, three replicas *)
Definition crCn : DorisCluster.t :=
  cluster (clusterSpec None None (Some (RoleSpec.mk 3 ∅)) None None).

(* the same FE sub-spec under two cluster-level Hadoop configurations *)
Definition crHadoop (coreSite : string) : DorisCluster.t :=
  cluster
    (clusterSpec (Some (feSpec 3 {[ "http_port" := "8031" ]} None))
       None None None
       (Some (HadoopConf.mk [] {[ "core-site.xml" := coreSite ]}))).

(* FE with another http port *)
Definition crFe' : DorisCluster.t :=
  cluster (clusterSpec (Some (feSpec 3 {[ "http_port" := "8032" ]} None))
             None None None None).

(* [crFe] with a cluster-level affinity added *)
Definition crFeAffinity : DorisCluster.t :=
  DorisCluster.mk "doris" "default"
    (DorisClusterSpec.mk (Some (feSpec 3 {[ "http_port" := "8031" ]} None))
       None None None None "IfNotPresent" [] ""
       (Some (Affinity.mk "zone-a")) [] "" None).

(* BE alone, two replicas *)
Definition crBe : DorisCluster.t :=
  cluster (clusterSpec None (Some (RoleSpec.mk 2 ∅)) None None None).

(* FE with a volume, a variable, a mount and a sidecar of the user's *)
Definition feRich : FESpec.t :=
  FESpec.mk 3 ∅ None None ∅
    [Volume.mk "scratch" (VolumeSource.EmptyDir "Memory")]
    [EnvVar.mk "TZ" "UTC" None]
    [VolumeMount.mk "scratch" "/scratch"]
    [Container.mk "sidecar" "busybox" "" ∅ [] [] [] None]
    [] [] "" None [] "" None.

Definition crFeRich : DorisCluster.t :=
  cluster (clusterSpec (Some feRich) None None None None).

(* a store that refuses to delete workload sets *)
Definition wDeleteRefused : World :=
  mkWorld ∅ None
    (mkFaults (fun _ _ => None) (fun _ => None)
       (fun _ kind =>
          match kind with
          | KStatefulSet => Some "delete refused"
          | _ => None
          end)
       None).

(* a store whose autoscaler lookup fails *)
Definition wLookupFails : World :=
  mkWorld ∅ None
    (mkFaults (fun _ _ => None) (fun _ => None) (fun _ _ => None)
       (Some "lookup failed")).

(* a store with an autoscaler bound to the cluster *)
Definition scaler : DorisAutoScaler.t := DorisAutoScaler.mk "doris" "default".

Definition wScaled : World := mkWorld ∅ (Some scaler) healthy.

(* a store that already holds the operator account secret, with other
   credentials than a fresh one would get *)
Definition oldSecret : Object :=
  OSecret
    (Some (Secret.mk (roleMeta crNone "operator" "-opr-account")
             (<[ "password" := "old" ]> (<[ "user" := "k8sopr" ]> ∅)))).

Definition wSecretPresent : World :=
  mkWorld {[ ("Secret", ("default", "doris-opr-account")) := oldSecret ]}
    None healthy.

(* operation, kind and name of a client call *)
Definition describe (ev : Event) : string * (string * string) :=
  let named (obj : Object) :=
    match slotOf obj with
    | Some k => (k.1, k.2.2)
    | None => ("", "")
    end in
  match ev with
  | EvExist key kind _ => ("Exist", (kindName kind, NamespacedName.Name key))
  | EvCreate obj _ => ("Create", named obj)
  | EvCreateOrUpdate obj _ => ("CreateOrUpdate", named obj)
  | EvDeleteWhenExist key kind _ =>
      ("DeleteWhenExist", (kindName kind, NamespacedName.Name key))
  | EvFindRefDorisAutoScaler key _ =>
      ("FindRefDorisAutoScaler", ("DorisAutoScaler", NamespacedName.Name key))
  end.

(* the workload set of the last client call, when it is an apply of one *)
Definition lastApplied (evs : list Event) : option StatefulSet.t :=
  match last evs with
  | Some (EvCreateOrUpdate (OStatefulSet o) _) => o
  | _ => None
  end.

End sample.

(** * Properties of the pipeline *)

Import types metav1 corev1 appv1 dapi transformer reconciler.
Local Open Scope list_scope.

(** ** Running client calls *)

Section running.
Context {W : Type}.

Lemma after_nil {A : Type} (r : Run W A) : after [] r = r.
Proof. destruct r; reflexivity. Qed.

Lemma bind_perform {A B : Type} (op : W -> A * W) (ev : A -> Event)
  (k : A -> M W B) (w : W) :
  bind (perform op ev) k w = after [ev (op w).1] (k (op w).1 (op w).2).
Proof. unfold bind, perform. destruct (op w); reflexivity. Qed.

Lemma orFail_run (op : W -> option error * W) (ev : option error -> Event)
  (fail : error -> ClusterStageRecResult.t) (k : M W ClusterStageRecResult.t)
  (w : W) :
  orFail (perform op ev) fail k w =
  match (op w).1 with
  | Some e => mkRun (Returned (fail e)) (op w).2 [ev (op w).1]
  | None => after [ev (op w).1] (k (op w).2)
  end.
Proof.
  unfold orFail. rewrite bind_perform.
  destruct (op w) as [[e|] w']; reflexivity.
Qed.

Lemma bind_lift {A B : Type} (o : Outcome A) (k : A -> M W B) (w : W) :
  bind (lift o) k w =
  match o with
  | Returned a => k a w
  | Panicked p => mkRun (Panicked p) w []
  end.
Proof. unfold bind, lift. destruct o; cbn; [apply after_nil | reflexivity]. Qed.

End running.

(* Unfold the next client call of a stage and name its answer. *)
Ltac stage_call :=
  first [ rewrite orFail_run | rewrite bind_perform ];
  cbv zeta;
  match goal with
  | |- context [ (?op ?w).1 ] =>
      let E := fresh "Call" in
      let w' := fresh "w" in
      let a := fresh "ans" in
      destruct (op w) as [a w'] eqn:E;
      cbn [fst snd]
  end.

(* Refute a membership hypothesis over an explicit list of events. *)
Ltac absurd_event H :=
  cbn [after events app ret] in H;
  repeat (apply elem_of_cons in H as [H | H]; [discriminate H |]);
  apply elem_of_nil in H; contradiction.

(** ** The cluster reconciler *)

Section cluster_reconciler.
Context `{Helpers} `{Resources} {W : Type} `{Client W}.

Lemma runStages_complete fns (w w' : W) evs :
  runClean fns w w' evs -> runStages fns w = mkRun (Returned complete) w' evs.
Proof.
  induction 1 as [w | fn rest w w1 w2 r evs1 evs2 Hfn Hok _ IH].
  - reflexivity.
  - cbn [runStages]. unfold bind. rewrite Hfn. cbn [outcome final events].
    rewrite Hok, IH. reflexivity.
Qed.

Lemma runStages_first_error pre fn post (w w1 w2 : W) r e evs evs' :
  runClean pre w w1 evs ->
  fn w1 = mkRun (Returned r) w2 evs' ->
  ClusterStageRecResult.Err r = Some e ->
  runStages (pre ++ fn :: post) w = mkRun (Returned r) w2 (evs ++ evs').
Proof.
  intros Hpre Hfn Herr.
  induction Hpre as [w | f rest w wa wb r0 evs1 evs2 Hf Hok _ IH];
    cbn [app runStages]; unfold bind.
  - rewrite Hfn. cbn [outcome final events]. rewrite Herr.
    unfold after, ret. cbn. rewrite app_nil_r. reflexivity.
  - rewrite Hf. cbn [outcome final events]. rewrite Hok, (IH Hfn).
    unfold after. cbn. rewrite app_assoc. reflexivity.
Qed.

(** C1.  [Reconcile] runs the stages shared secret, FE, BE, CN, Broker in
    that order.  When the stages before some stage return without error and
    that stage returns a result carrying an error, the pass ends with exactly
    that result, with the store that stage left and with the client calls
    made up to the end of that stage and no other: no later stage has run.
    When all five return without error, the result is the "complete" one:
    stage [StageComplete], status succeeded, no action, no error. *)
Theorem Reconcile_fail_fast (cr : DorisCluster.t) :
  stages cr =
    [ recOprAccountSecret cr; recFeResources cr; recBeResources cr;
      recCnResources cr; recBrokerResources cr ]
  /\ (forall pre fn post (w w1 w2 : W) r e evs evs',
        stages cr = pre ++ fn :: post ->
        runClean pre w w1 evs ->
        fn w1 = mkRun (Returned r) w2 evs' ->
        ClusterStageRecResult.Err r = Some e ->
        Reconcile cr w = mkRun (Returned r) w2 (evs ++ evs'))
  /\ (forall (w w' : W) evs,
        runClean (stages cr) w w' evs ->
        Reconcile cr w =
          mkRun
            (Returned
               (ClusterStageRecResult.mk StageComplete StageResultSucceeded
                  StageActionNone None))
            w' evs).
Proof.
  split; [reflexivity |]. split.
  - intros pre fn post w w1 w2 r e evs evs' Hsplit Hpre Hfn Herr.
    unfold Reconcile. rewrite Hsplit.
    eapply runStages_first_error; eassumption.
  - intros w w' evs Hall. unfold Reconcile.
    apply runStages_complete. exact Hall.
Qed.

(** ** The shared-secret stage *)

(** C8.  When the existence check answers "present", the stage returns
    success and its only client call is that check: no create, no update,
    and the store is the one the check handed back.  When the check fails,
    the stage returns that error, again without a create.  When the check
    answers "absent", the second and last call creates the built secret.
    So a create is issued only if the check answered "absent". *)
Theorem recOprAccountSecret_no_rotation (cr : DorisCluster.t) (w : W) :
  let secretRef := GetOprSqlAccountSecretKey (DorisCluster.ObjKey cr) in
  (forall w',
      Exist secretRef KSecret w = ((true, None), w') ->
      recOprAccountSecret cr w =
        mkRun (Returned (clusterStageSucc StageSqlAccountSecret StageActionApply))
          w' [EvExist secretRef KSecret (true, None)])
  /\ (forall found e w',
      Exist secretRef KSecret w = ((found, Some e), w') ->
      recOprAccountSecret cr w =
        mkRun (Returned (clusterStageFail StageSqlAccountSecret StageActionApply e))
          w' [EvExist secretRef KSecret (found, Some e)])
  /\ (forall w' ans w'',
      Exist secretRef KSecret w = ((false, None), w') ->
      Create (OSecret (MakeOprSqlAccountSecret cr)) w' = (ans, w'') ->
      events (recOprAccountSecret cr w) =
        [ EvExist secretRef KSecret (false, None);
          EvCreate (OSecret (MakeOprSqlAccountSecret cr)) ans ]
      /\ final (recOprAccountSecret cr w) = w'')
  /\ (forall obj ans,
      EvCreate obj ans ∈ events (recOprAccountSecret cr w) ->
      exists w', Exist secretRef KSecret w = ((false, None), w')).
Proof.
  intros secretRef. unfold recOprAccountSecret. fold secretRef.
  unfold rExist, rCreate.
  split; [| split; [| split]].
  - intros w' E. rewrite bind_perform, E. reflexivity.
  - intros found e w' E. rewrite bind_perform, E. reflexivity.
  - intros w' ans w'' E C.
    rewrite bind_perform, E. cbn [fst snd negb].
    rewrite orFail_run, C. cbn [fst snd].
    destruct ans; split; reflexivity.
  - intros obj ans. rewrite bind_perform.
    destruct (Exist secretRef KSecret w) as [[found [e|]] w'] eqn:E;
      cbn [fst snd].
    + intros Hin. absurd_event Hin.
    + destruct found; cbn [negb]; [| eauto].
      intros Hin. absurd_event Hin.
Qed.

End cluster_reconciler.

(** ** The role reconcilers *)

Section role_reconcilers.
Context `{Helpers} `{Resources} {W : Type} `{Client W}.

Lemma stampConfHash_returned key configMap statefulSet stamped :
  stampConfHash key configMap statefulSet = Returned stamped ->
  exists cm sts annotations,
    configMap = Some cm /\ statefulSet = Some sts
    /\ ObjectMeta.Annotations (StatefulSet.Meta sts) = Some annotations
    /\ ObjectMeta.Annotations (StatefulSet.Meta stamped)
       = Some (<[ key := ConfigHash cm ]> annotations)
    /\ StatefulSet.Spec stamped = StatefulSet.Spec sts.
Proof.
  unfold stampConfHash.
  destruct statefulSet as [sts|]; [| discriminate].
  destruct configMap as [cm|]; [| discriminate].
  destruct (ObjectMeta.Annotations (StatefulSet.Meta sts)) as [a|] eqn:E;
    [| discriminate].
  intros [= <-]. exists cm, sts, a. repeat split; assumption.
Qed.

(** C4.  With CN declared, let the three applies that come before the
    workload set succeed, and let the client's autoscaler lookup answer
    without error.  Then the stage makes exactly one more call: it applies
    the stamped workload set, with the replica count set to nil when the
    lookup answered with a binding, whatever count the builder put there, and
    exactly as stamped, the builder's replica count included, when the lookup
    answered with none.  The stage returns what that apply answers. *)
Theorem recCnResources_replicas (cr : DorisCluster.t) (w w1 w2 w3 w4 w5 : W)
  (built stamped : StatefulSet.t) (found : option DorisAutoScaler.t)
  (ans : option error) :
  let applied := cnApplied found stamped in
  is_Some (DorisClusterSpec.CN (DorisCluster.Spec cr)) ->
  MakeCnStatefulSet cr = Some built ->
  stampConfHash CnConfHashAnnotationKey (MakeCnConfigMap cr) (Some built)
    = Returned stamped ->
  CreateOrUpdate (OConfigMap (MakeCnConfigMap cr)) w = (None, w1) ->
  CreateOrUpdate (OService (MakeCnService cr)) w1 = (None, w2) ->
  CreateOrUpdate (OService (MakeCnPeerService cr)) w2 = (None, w3) ->
  FindRefDorisAutoScaler (DorisCluster.ObjKey cr) w3 = ((found, None), w4) ->
  CreateOrUpdate (OStatefulSet (Some applied)) w4 = (ans, w5) ->
  recCnResources cr w =
    mkRun
      (Returned
         match ans with
         | Some e => clusterStageFail StageCnStatefulSet StageActionApply e
         | None => clusterStageSucc StageCn StageActionApply
         end)
      w5
      [ EvCreateOrUpdate (OConfigMap (MakeCnConfigMap cr)) None;
        EvCreateOrUpdate (OService (MakeCnService cr)) None;
        EvCreateOrUpdate (OService (MakeCnPeerService cr)) None;
        EvFindRefDorisAutoScaler (DorisCluster.ObjKey cr) (found, None);
        EvCreateOrUpdate (OStatefulSet (Some applied)) ans ]
  /\ StatefulSetSpec.Replicas (StatefulSet.Spec applied)
     = match found with
       | Some _ => None
       | None => StatefulSetSpec.Replicas (StatefulSet.Spec built)
       end
  /\ (found = None -> applied = stamped).
Proof.
  intros applied Hcn Hbuilt Hstamp A1 A2 A3 Hfind A4.
  split; [| split].
  - unfold recCnResources, util.Elvis.
    rewrite (bool_decide_eq_true_2 _ Hcn).
    unfold rCreateOrUpdate, rFindRefDorisAutoScaler. cbv zeta.
    rewrite orFail_run, A1. cbn [fst snd].
    rewrite orFail_run, A2. cbn [fst snd].
    rewrite orFail_run, A3. cbn [fst snd].
    rewrite bind_lift, Hbuilt, Hstamp.
    rewrite bind_perform, Hfind. cbn [fst snd].
    replace (match found with
             | Some _ =>
                 StatefulSet.with_Spec
                   (StatefulSetSpec.with_Replicas None (StatefulSet.Spec stamped))
                   stamped
             | None => stamped
             end) with applied by (subst applied; destruct found; reflexivity).
    rewrite orFail_run, A4. cbn [fst snd].
    destruct ans; reflexivity.
  - destruct (stampConfHash_returned _ _ _ _ Hstamp)
      as (cm & sts & anns & _ & [= <-] & _ & _ & Hspec).
    subst applied. destruct found; cbn; [reflexivity |].
    rewrite Hspec. reflexivity.
  - intros ->. reflexivity.
Qed.

(** C6 (as the code has it).  With CN declared, when the autoscaler lookup
    answers with an error, the stage returns a result carrying that error,
    tagged with the workload-set step, and the lookup is its last client
    call: the workload set is not applied.  The lookup comes fourth: the
    configuration bundle, the client endpoint and the peer endpoint have been
    applied, successfully, before it. *)
Theorem recCnResources_lookup_error (cr : DorisCluster.t) (w : W)
  (found : option DorisAutoScaler.t) (e : error) :
  is_Some (DorisClusterSpec.CN (DorisCluster.Spec cr)) ->
  EvFindRefDorisAutoScaler (DorisCluster.ObjKey cr) (found, Some e)
    ∈ events (recCnResources cr w) ->
  outcome (recCnResources cr w)
    = Returned (clusterStageFail StageCnStatefulSet StageActionApply e)
  /\ events (recCnResources cr w)
     = [ EvCreateOrUpdate (OConfigMap (MakeCnConfigMap cr)) None;
         EvCreateOrUpdate (OService (MakeCnService cr)) None;
         EvCreateOrUpdate (OService (MakeCnPeerService cr)) None;
         EvFindRefDorisAutoScaler (DorisCluster.ObjKey cr) (found, Some e) ]
  /\ (forall o a,
        EvCreateOrUpdate (OStatefulSet o) a ∉ events (recCnResources cr w)).
Proof.
  intros Hcn. unfold recCnResources, util.Elvis.
  rewrite (bool_decide_eq_true_2 _ Hcn).
  unfold rCreateOrUpdate, rFindRefDorisAutoScaler. cbv zeta.
  stage_call. destruct ans as [e0|]; [intros Hin; absurd_event Hin |].
  stage_call. destruct ans as [e0|]; [intros Hin; absurd_event Hin |].
  stage_call. destruct ans as [e0|]; [intros Hin; absurd_event Hin |].
  rewrite bind_lift.
  destruct (stampConfHash CnConfHashAnnotationKey (MakeCnConfigMap cr)
              (MakeCnStatefulSet cr)) as [stamped | p] eqn:Hstamp;
    [| intros Hin; absurd_event Hin].
  stage_call. destruct ans as [found' [e0|]]; cbn [fst snd].
  - intros Hin.
    assert (found' = found /\ e0 = e) as [-> ->].
    { cbn [after events app] in Hin.
      repeat (apply elem_of_cons in Hin as [Hin | Hin];
              [first [discriminate Hin | split; congruence] |]).
      apply elem_of_nil in Hin. contradiction. }
    split; [reflexivity |]. split; [reflexivity |].
    intros o a Ho. absurd_event Ho.
  - stage_call. intros Hin. exfalso.
    destruct ans; absurd_event Hin.
Qed.

Lemma stampConfHash_on_object key configMap statefulSet stamped :
  stampConfHash key configMap statefulSet = Returned stamped ->
  stampedOnObject key configMap statefulSet stamped.
Proof.
  unfold stampConfHash.
  destruct statefulSet as [built|]; [| discriminate].
  destruct configMap as [cm|]; [| discriminate].
  destruct (ObjectMeta.Annotations (StatefulSet.Meta built)) as [anns|] eqn:E;
    [| discriminate].
  intros [= <-]. exists cm, built, anns. auto.
Qed.

Lemma append_inj_r (p s1 s2 : string) : p +:+ s1 = p +:+ s2 -> s1 = s2.
Proof. induction p as [| c p IH]; cbn; [auto |]. intros [= E]. auto. Qed.

Lemma ConfHashAnnotationKeys_distinct :
  NoDup [ FeConfHashAnnotationKey; BeConfHashAnnotationKey;
          CnConfHashAnnotationKey; BrokerConfHashAnnotationKey ].
Proof.
  unfold FeConfHashAnnotationKey, BeConfHashAnnotationKey,
    CnConfHashAnnotationKey, BrokerConfHashAnnotationKey.
  repeat (apply NoDup_cons; split;
          [ intros Hin;
            repeat (apply elem_of_cons in Hin as [Hin | Hin];
                    [apply append_inj_r in Hin; discriminate Hin |]);
            apply elem_of_nil in Hin; contradiction |]).
  apply NoDup_nil. exact I.
Qed.

(* A delete path applies nothing. *)
Ltac delete_path :=
  unfold rDeleteWhenExist; cbv zeta;
  repeat (stage_call;
          match goal with
          | a : option error |- _ =>
              destruct a; [let Hin := fresh in intros Hin; absurd_event Hin |]
          end);
  let Hin := fresh in intros Hin; absurd_event Hin.

(* The first calls of an apply path, up to the stamping. *)
Ltac apply_path_prefix :=
  unfold rCreateOrUpdate, rFindRefDorisAutoScaler; cbv zeta;
  repeat (stage_call;
          match goal with
          | a : option error |- _ =>
              destruct a; [let Hin := fresh in intros Hin; absurd_event Hin |]
          end);
  rewrite bind_lift.

(* The last call of the CN apply path, with the workload set it applies
   named. *)
Lemma cnApplied_as_coded (found : option DorisAutoScaler.t) (stamped : StatefulSet.t) :
  match found with
  | Some _ =>
      StatefulSet.with_Spec
        (StatefulSetSpec.with_Replicas None (StatefulSet.Spec stamped)) stamped
  | None => stamped
  end = cnApplied found stamped.
Proof. destruct found; reflexivity. Qed.

(** C2 (the code).  The stamping statement of every role writes the hash
    into the annotation map of the workload set's own metadata, and nowhere
    else.  For BE, CN and Broker, every workload set the stage applies is the
    built one with [MapMd5] of the just-built bundle's data under the role's
    key in that map (for CN, with the replica count removed when the lookup
    found a binding); nothing else differs from what the builder returned, so
    the pod template, its annotations included, is the built one and does
    not carry the hash: a change of the configuration does not alter it.
    For FE, whose builder is in the sources, the builder initialises the
    annotation map of the pod template, with the three metrics entries, and
    leaves the object's own map nil, and the stage applies no workload set
    at all.  The four roles' keys are pairwise distinct. *)
Theorem apply_stamps_object_annotation (cr : DorisCluster.t) (w : W) :
  (forall applied ans,
      EvCreateOrUpdate (OStatefulSet (Some applied)) ans
        ∈ events (recBeResources cr w) ->
      stampedOnObject BeConfHashAnnotationKey (MakeBeConfigMap cr)
        (MakeBeStatefulSet cr) applied)
  /\ (forall applied ans,
        EvCreateOrUpdate (OStatefulSet (Some applied)) ans
          ∈ events (recCnResources cr w) ->
        exists stamped found,
          stampedOnObject CnConfHashAnnotationKey (MakeCnConfigMap cr)
            (MakeCnStatefulSet cr) stamped
          /\ EvFindRefDorisAutoScaler (DorisCluster.ObjKey cr) (found, None)
               ∈ events (recCnResources cr w)
          /\ applied = cnApplied found stamped)
  /\ (forall applied ans,
        EvCreateOrUpdate (OStatefulSet (Some applied)) ans
          ∈ events (recBrokerResources cr w) ->
        stampedOnObject BrokerConfHashAnnotationKey (MakeBrokerConfigMap cr)
          (MakeBrokerStatefulSet cr) applied)
  /\ (forall key cm built stamped found,
        stampedOnObject key (Some cm) (Some built) stamped ->
        ObjectMeta.Annotations (StatefulSet.Meta (cnApplied found stamped))
          ≫= (.!! key)
        = Some (MapMd5 (ConfigMap.Data cm))
        /\ StatefulSetSpec.Template (StatefulSet.Spec (cnApplied found stamped))
           = StatefulSetSpec.Template (StatefulSet.Spec built))
  /\ (forall fe,
        DorisClusterSpec.FE (DorisCluster.Spec cr) = Some fe ->
        exists built,
          MakeFeStatefulSet cr = Some built
          /\ ObjectMeta.Annotations (StatefulSet.Meta built) = None
          /\ ObjectMeta.Annotations
               (PodTemplateSpec.Meta
                  (StatefulSetSpec.Template (StatefulSet.Spec built)))
             = Some (<[ PrometheusScrapeAnnoKey := "true" ]>
                       (<[ PrometheusPortAnnoKey := strconv.Itoa (GetFeHttpPort cr) ]>
                          (<[ PrometheusPathAnnoKey := "/metrics" ]> ∅)))
          /\ forall o a,
               EvCreateOrUpdate (OStatefulSet o) a ∉ events (recFeResources cr w))
  /\ NoDup [ FeConfHashAnnotationKey; BeConfHashAnnotationKey;
             CnConfHashAnnotationKey; BrokerConfHashAnnotationKey ].
Proof.
  split; [| split; [| split; [| split; [| split;
    [| apply ConfHashAnnotationKeys_distinct]]]]].
  - intros applied ans. unfold recBeResources, util.Elvis.
    destruct (bool_decide _); [| delete_path].
    apply_path_prefix.
    destruct (stampConfHash BeConfHashAnnotationKey (MakeBeConfigMap cr)
                (MakeBeStatefulSet cr)) as [stamped | p] eqn:Hstamp;
      [| intros Hin; absurd_event Hin].
    stage_call. intros Hin.
    assert (applied = stamped) as ->.
    { destruct ans0; cbn [after events app ret] in Hin;
        repeat (apply elem_of_cons in Hin as [Hin | Hin];
                [first [discriminate Hin | congruence] |]);
        apply elem_of_nil in Hin; contradiction. }
    apply stampConfHash_on_object. exact Hstamp.
  - intros applied ans. unfold recCnResources, util.Elvis.
    destruct (bool_decide _); [| delete_path].
    apply_path_prefix.
    destruct (stampConfHash CnConfHashAnnotationKey (MakeCnConfigMap cr)
                (MakeCnStatefulSet cr)) as [stamped | p] eqn:Hstamp;
      [| intros Hin; absurd_event Hin].
    stage_call. destruct ans0 as [found [e|]]; cbn [fst snd];
      [intros Hin; absurd_event Hin |].
    rewrite cnApplied_as_coded.
    stage_call. intros Hin.
    exists stamped, found.
    split; [apply stampConfHash_on_object; exact Hstamp |].
    split.
    + destruct ans0; apply (list_elem_of_lookup_2 _ 3); reflexivity.
    + destruct ans0; cbn [after events app ret] in Hin;
        repeat (apply elem_of_cons in Hin as [Hin | Hin];
                [first [discriminate Hin | congruence] |]);
        apply elem_of_nil in Hin; contradiction.
  - intros applied ans. unfold recBrokerResources, util.Elvis.
    destruct (bool_decide _); [| delete_path].
    apply_path_prefix.
    destruct (stampConfHash BrokerConfHashAnnotationKey (MakeBrokerConfigMap cr)
                (MakeBrokerStatefulSet cr)) as [stamped | p] eqn:Hstamp;
      [| intros Hin; absurd_event Hin].
    stage_call. intros Hin.
    assert (applied = stamped) as ->.
    { destruct ans0; cbn [after events app ret] in Hin;
        repeat (apply elem_of_cons in Hin as [Hin | Hin];
                [first [discriminate Hin | congruence] |]);
        apply elem_of_nil in Hin; contradiction. }
    apply stampConfHash_on_object. exact Hstamp.
  - intros key cm built stamped found
      (cm' & built' & anns & [= <-] & [= <-] & _ & ->).
    destruct found; cbn; (split; [apply lookup_insert_eq | reflexivity]).
  - intros fe Hfe.
    assert (Hstamp :
      stampConfHash FeConfHashAnnotationKey (MakeFeConfigMap cr)
        (MakeFeStatefulSet cr) = Panicked NilMapAssignment).
    { unfold stampConfHash, MakeFeStatefulSet, MakeFeConfigMap.
      rewrite Hfe. reflexivity. }
    unfold MakeFeStatefulSet at 1. rewrite Hfe. eexists.
    split; [reflexivity |]. split; [reflexivity |]. split; [reflexivity |].
    unfold recFeResources, util.Elvis. rewrite Hfe.
    rewrite bool_decide_eq_true_2 by eauto.
    unfold rCreateOrUpdate. cbv zeta.
    stage_call. destruct ans as [e|]; [intros o a Hin; absurd_event Hin |].
    stage_call. destruct ans as [e|]; [intros o a Hin; absurd_event Hin |].
    stage_call. destruct ans as [e|]; [intros o a Hin; absurd_event Hin |].
    rewrite bind_lift, Hstamp.
    intros o a Hin; absurd_event Hin.
Qed.

(** C7 (the code at its failing step).  With FE absent, when deleting the
    workload set fails, the stage stops there, and the result it returns
    names the configuration-bundle step, [StageFeConfigmap], with status
    succeeded. *)
Theorem recFeResources_delete_failure_stage (cr : DorisCluster.t) (w w1 : W)
  (e : error) :
  DorisClusterSpec.FE (DorisCluster.Spec cr) = None ->
  DeleteWhenExist (GetFeStatefulSetKey (DorisCluster.ObjKey cr)) KStatefulSet w
    = (Some e, w1) ->
  recFeResources cr w =
    mkRun
      (Returned
         (ClusterStageRecResult.mk StageFeConfigmap StageResultSucceeded
            StageActionDelete (Some e)))
      w1
      [ EvDeleteWhenExist (GetFeStatefulSetKey (DorisCluster.ObjKey cr))
          KStatefulSet (Some e) ].
Proof.
  intros Hfe Hdel. unfold recFeResources, util.Elvis. rewrite Hfe.
  rewrite bool_decide_eq_false_2 by (intros [x Hx]; discriminate Hx).
  unfold rDeleteWhenExist. cbv zeta. rewrite orFail_run, Hdel. reflexivity.
Qed.

(* The delete path of FE when every deletion succeeds: workload set, client
   endpoint, peer endpoint, configuration bundle, in that order. *)
Lemma recFeResources_delete_order (cr : DorisCluster.t) (w w1 w2 w3 w4 : W) :
  let key := DorisCluster.ObjKey cr in
  DorisClusterSpec.FE (DorisCluster.Spec cr) = None ->
  DeleteWhenExist (GetFeStatefulSetKey key) KStatefulSet w = (None, w1) ->
  DeleteWhenExist (GetFeServiceKey key) KService w1 = (None, w2) ->
  DeleteWhenExist (GetFePeerServiceKey key) KService w2 = (None, w3) ->
  DeleteWhenExist (GetFeConfigMapKey key) KConfigMap w3 = (None, w4) ->
  recFeResources cr w =
    mkRun (Returned (clusterStageSucc StageFe StageActionDelete)) w4
      [ EvDeleteWhenExist (GetFeStatefulSetKey key) KStatefulSet None;
        EvDeleteWhenExist (GetFeServiceKey key) KService None;
        EvDeleteWhenExist (GetFePeerServiceKey key) KService None;
        EvDeleteWhenExist (GetFeConfigMapKey key) KConfigMap None ].
Proof.
  intros key Hfe D1 D2 D3 D4. unfold recFeResources, util.Elvis. rewrite Hfe.
  rewrite bool_decide_eq_false_2 by (intros [x Hx]; discriminate Hx).
  unfold rDeleteWhenExist. cbv zeta. fold key.
  rewrite orFail_run, D1. cbn [fst snd].
  rewrite orFail_run, D2. cbn [fst snd].
  rewrite orFail_run, D3. cbn [fst snd].
  rewrite orFail_run, D4. reflexivity.
Qed.

(** C10 (the code).  With FE declared, [MakeFeStatefulSet] returns a workload
    set whose own annotation map is nil, so the stamping statement of the FE
    stage faults; the FE stage therefore never applies a workload set, and
    never returns success: it either returns an error from one of the first
    three applies or panics on the assignment into the nil map. *)
Theorem MakeFeStatefulSet_annotations_nil (cr : DorisCluster.t) (fe : FESpec.t) :
  DorisClusterSpec.FE (DorisCluster.Spec cr) = Some fe ->
  (exists sts,
      MakeFeStatefulSet cr = Some sts
      /\ ObjectMeta.Annotations (StatefulSet.Meta sts) = None)
  /\ stampConfHash FeConfHashAnnotationKey (MakeFeConfigMap cr)
       (MakeFeStatefulSet cr) = Panicked NilMapAssignment
  /\ (forall w,
        (forall o a,
            EvCreateOrUpdate (OStatefulSet o) a ∉ events (recFeResources cr w))
        /\ (outcome (recFeResources cr w) = Panicked NilMapAssignment
            \/ exists r e,
                 outcome (recFeResources cr w) = Returned r
                 /\ ClusterStageRecResult.Err r = Some e)).
Proof.
  intros Hfe.
  assert (Hstamp :
    stampConfHash FeConfHashAnnotationKey (MakeFeConfigMap cr)
      (MakeFeStatefulSet cr) = Panicked NilMapAssignment).
  { unfold stampConfHash, MakeFeStatefulSet, MakeFeConfigMap.
    rewrite Hfe. reflexivity. }
  split; [| split; [exact Hstamp |]].
  - unfold MakeFeStatefulSet. rewrite Hfe. eexists. split; reflexivity.
  - intros w. unfold recFeResources, util.Elvis. rewrite Hfe.
    rewrite bool_decide_eq_true_2 by eauto.
    unfold rCreateOrUpdate. cbv zeta.
    stage_call. destruct ans as [e|].
    { split; [intros o a Hin; absurd_event Hin | right; eauto]. }
    stage_call. destruct ans as [e|].
    { split; [intros o a Hin; absurd_event Hin | right; eauto]. }
    stage_call. destruct ans as [e|].
    { split; [intros o a Hin; absurd_event Hin | right; eauto]. }
    rewrite bind_lift, Hstamp.
    split; [intros o a Hin; absurd_event Hin | left; reflexivity].
Qed.

End role_reconcilers.

(** ** Stage results *)

(** C3 (the code).  A result built by [clusterStageFail] carries the error
    and the status succeeded. *)
Theorem clusterStageFail_status (stage : DorisClusterOprStage)
  (action : OprStageAction) (err : error) :
  ClusterStageRecResult.Err (clusterStageFail stage action err) = Some err
  /\ ClusterStageRecResult.Status (clusterStageFail stage action err)
     = StageResultSucceeded.
Proof. split; reflexivity. Qed.

(** ** FE ports and configuration hash *)

Section fe_transformer.
Context `{Helpers}.

(** C5 (the code).  With FE declared, the http, query and edit-log ports are
    read from their own keys, while the rpc port is read from the key
    "query_port" with default 9020; and in the FE service the http-port entry
    gets the NodePort of the user's QueryPort override while the query-port
    entry gets the one of the HttpPort override. *)
Theorem fe_ports_as_coded (cr : DorisCluster.t) (fe : FESpec.t) :
  DorisClusterSpec.FE (DorisCluster.Spec cr) = Some fe ->
  GetFeHttpPort cr = getPortValueFromRawConf (FESpec.Configs fe) "http_port" 8030
  /\ GetFeQueryPort cr = getPortValueFromRawConf (FESpec.Configs fe) "query_port" 9030
  /\ GetFeEditLogPort cr
     = getPortValueFromRawConf (FESpec.Configs fe) "edit_log_port" 9010
  /\ GetFeRpcPort cr = getPortValueFromRawConf (FESpec.Configs fe) "query_port" 9020
  /\ (forall svc,
        FESpec.Service fe = Some svc ->
        exists service,
          MakeFeService cr = Some service
          /\ map (fun p => (ServicePort.Name p, ServicePort.NodePort p))
               (ServiceSpec.Ports (Service.Spec service))
             = [ ("http-port", default 0 (ExportService.QueryPort svc));
                 ("query-port", default 0 (ExportService.HttpPort svc)) ]).
Proof.
  intros Hfe.
  unfold GetFeHttpPort, GetFeQueryPort, GetFeEditLogPort, GetFeRpcPort.
  rewrite Hfe. repeat (split; [reflexivity |]).
  intros svc Hsvc. unfold MakeFeService. rewrite Hfe, Hsvc.
  eexists. split; [reflexivity |].
  destruct (ExportService.QueryPort svc), (ExportService.HttpPort svc);
    reflexivity.
Qed.

(* The data of the FE bundle: the rendered FE entries under "fe.conf", merged
   with the cluster-level Hadoop configuration when there is one. *)
Lemma MakeFeConfigMap_Data (cr : DorisCluster.t) (fe : FESpec.t) :
  DorisClusterSpec.FE (DorisCluster.Spec cr) = Some fe ->
  ConfigMap.Data <$> MakeFeConfigMap cr =
  Some
    match DorisClusterSpec.HadoopConf (DorisCluster.Spec cr) with
    | Some hc =>
        MergeMaps (HadoopConf.Config hc)
          {[ "fe.conf" := dumpJavaBasedComponentConf (FESpec.Configs fe) ]}
    | None => {[ "fe.conf" := dumpJavaBasedComponentConf (FESpec.Configs fe) ]}
    end.
Proof.
  intros Hfe. unfold MakeFeConfigMap. rewrite Hfe.
  destruct (DorisClusterSpec.HadoopConf (DorisCluster.Spec cr)); reflexivity.
Qed.

Lemma ConfigHash_MakeFeConfigMap (cr : DorisCluster.t) :
  ConfigHash <$> MakeFeConfigMap cr
  = MapMd5 <$> (ConfigMap.Data <$> MakeFeConfigMap cr).
Proof. destruct (MakeFeConfigMap cr); reflexivity. Qed.

End fe_transformer.

(** ** The FE builders *)

Lemma length_append (s t : string) :
  String.length (s +:+ t) = (String.length s + String.length t)%nat.
Proof. induction s as [| c s IH]; simpl; [reflexivity | f_equal; exact IH]. Qed.

Lemma append_inj_l (s1 s2 t : string) : s1 +:+ t = s2 +:+ t -> s1 = s2.
Proof.
  revert s2. induction s1 as [| c s1 IH]; intros [| c' s2] E; cbn in E.
  - reflexivity.
  - apply (f_equal String.length) in E.
    simpl in E. rewrite !length_append in E. simpl in E. lia.
  - apply (f_equal String.length) in E.
    simpl in E. rewrite !length_append in E. simpl in E. lia.
  - injection E as -> E. f_equal. apply IH. exact E.
Qed.

Section fe_builders.
Context `{Helpers}.

(** A builder of FE returns nil exactly when the FE role is undeclared. *)
Theorem MakeFe_nil_iff_undeclared (cr : DorisCluster.t) :
  (MakeFeConfigMap cr = None <-> DorisClusterSpec.FE (DorisCluster.Spec cr) = None)
  /\ (MakeFeService cr = None <-> DorisClusterSpec.FE (DorisCluster.Spec cr) = None)
  /\ (MakeFePeerService cr = None
      <-> DorisClusterSpec.FE (DorisCluster.Spec cr) = None)
  /\ (MakeFeStatefulSet cr = None
      <-> DorisClusterSpec.FE (DorisCluster.Spec cr) = None).
Proof.
  unfold MakeFeConfigMap, MakeFeService, MakeFePeerService, MakeFeStatefulSet.
  destruct (DorisClusterSpec.FE (DorisCluster.Spec cr)) as [fe|].
  - repeat split; intros E; try discriminate E.
    destruct (FESpec.Service fe); discriminate E.
  - repeat split; reflexivity.
Qed.

(** The names of the FE objects: the configuration bundle, the client service
    and the peer service of one cluster never share a name, and the workload
    set bears the client service's name; two clusters whose FE client services
    (or config maps, or peer services) have the same identity have the same
    name and namespace. *)
Theorem fe_object_names (cr cr' : DorisCluster.t) :
  NoDup [ NamespacedName.Name (GetFeConfigMapName cr);
          NamespacedName.Name (GetFeServiceName cr);
          NamespacedName.Name (GetFePeerServiceName cr) ]
  /\ GetFeStatefulSetName cr = GetFeServiceName cr
  /\ (GetFeConfigMapName cr = GetFeConfigMapName cr'
      \/ GetFeServiceName cr = GetFeServiceName cr'
      \/ GetFePeerServiceName cr = GetFePeerServiceName cr'
      \/ GetFeStatefulSetName cr = GetFeStatefulSetName cr' ->
      DorisCluster.Name cr = DorisCluster.Name cr'
      /\ DorisCluster.Namespace cr = DorisCluster.Namespace cr').
Proof.
  unfold GetFeConfigMapName, GetFeServiceName, GetFePeerServiceName,
    GetFeStatefulSetName. cbn [NamespacedName.Name].
  split; [| split; [reflexivity |]].
  - repeat (apply NoDup_cons; split;
            [ intros Hin;
              repeat (apply elem_of_cons in Hin as [Hin | Hin];
                      [apply append_inj_r in Hin; discriminate Hin |]);
              apply elem_of_nil in Hin; contradiction |]).
    apply NoDup_nil. exact I.
  - intros [E | [E | [E | E]]]; injection E as Ens Ename;
      apply append_inj_l in Ename; auto.
Qed.

(** With FE declared, the ports the two services advertise are ports the main
    container listens on, under the same names; the readiness probe targets
    the container's query port; and, the scrape and port annotation keys
    being different, the metrics port annotation of the pod template is the
    container's http port in decimal. *)
Theorem fe_ports_consistent (cr : DorisCluster.t) (fe : FESpec.t) :
  DorisClusterSpec.FE (DorisCluster.Spec cr) = Some fe ->
  PrometheusScrapeAnnoKey <> PrometheusPortAnnoKey ->
  exists service peerService statefulSet mainContainer others probe httpPort,
    MakeFeService cr = Some service
    /\ MakeFePeerService cr = Some peerService
    /\ MakeFeStatefulSet cr = Some statefulSet
    /\ PodSpec.Containers
         (PodTemplateSpec.Spec
            (StatefulSetSpec.Template (StatefulSet.Spec statefulSet)))
       = mainContainer :: others
    /\ (forall p,
          p ∈ ServiceSpec.Ports (Service.Spec service)
               ++ ServiceSpec.Ports (Service.Spec peerService) ->
          ContainerPort.mk (ServicePort.Name p) (ServicePort.Port p)
            ∈ Container.Ports mainContainer)
    /\ Container.ReadinessProbe mainContainer = Some probe
    /\ ContainerPort.mk "query-port" (Probe.TCPSocketPort probe)
         ∈ Container.Ports mainContainer
    /\ ContainerPort.mk "http-port" httpPort ∈ Container.Ports mainContainer
    /\ ObjectMeta.Annotations
         (PodTemplateSpec.Meta
            (StatefulSetSpec.Template (StatefulSet.Spec statefulSet)))
         ≫= (.!! PrometheusPortAnnoKey)
       = Some (strconv.Itoa httpPort).
Proof.
  intros Hfe Hkeys.
  unfold MakeFeService, MakeFePeerService, MakeFeStatefulSet. rewrite Hfe.
  destruct (FESpec.Service fe) as [crSvc|].
  all: do 7 eexists.
  all: split; [reflexivity |]; split; [reflexivity |]; split; [reflexivity |].
  all: split; [reflexivity |]; split.
  all: try (split; [reflexivity |];
            cbn [Probe.TCPSocketPort Container.Ports];
            split; [rewrite !elem_of_cons; tauto |];
            split; [apply list_elem_of_here |];
            cbn; rewrite lookup_insert_ne by exact Hkeys; apply lookup_insert_eq).
  all: intros p Hp; cbn [Service.Spec ServiceSpec.Ports Container.Ports].
  all: assert (Hp' :
      ServicePort.Name p = "http-port" /\ ServicePort.Port p = GetFeHttpPort cr
      \/ ServicePort.Name p = "query-port" /\ ServicePort.Port p = GetFeQueryPort cr
      \/ ServicePort.Name p = "edit-log-port"
         /\ ServicePort.Port p = GetFeEditLogPort cr
      \/ ServicePort.Name p = "rpc-port" /\ ServicePort.Port p = GetFeRpcPort cr)
    by (apply elem_of_app in Hp as [Hp | Hp];
        cbn [Service.Spec ServiceSpec.Ports] in Hp;
        try destruct (ExportService.QueryPort crSvc);
        try destruct (ExportService.HttpPort crSvc);
        repeat (apply elem_of_cons in Hp as [-> | Hp]; [cbn; tauto |]);
        apply elem_of_nil in Hp; contradiction).
  all: destruct Hp' as [[-> ->] | [[-> ->] | [[-> ->] | [-> ->]]]];
    rewrite !elem_of_cons; tauto.
Qed.

(** With FE declared, the four FE objects bear the names of the name
    functions, in the cluster's namespace, and refer to one another: the
    workload set's governing service is the peer service, its "conf" volume
    is the configuration bundle, and its selector, the pod template's labels
    and the selectors of both services are the same label set. *)
Theorem fe_objects_wired (cr : DorisCluster.t) (fe : FESpec.t) :
  DorisClusterSpec.FE (DorisCluster.Spec cr) = Some fe ->
  exists configMap service peerService statefulSet,
    MakeFeConfigMap cr = Some configMap
    /\ MakeFeService cr = Some service
    /\ MakeFePeerService cr = Some peerService
    /\ MakeFeStatefulSet cr = Some statefulSet
    /\ (let template := StatefulSetSpec.Template (StatefulSet.Spec statefulSet) in
        let key (m : ObjectMeta.t) :=
          NamespacedName.mk (ObjectMeta.Namespace m) (ObjectMeta.Name m) in
        key (ConfigMap.Meta configMap) = GetFeConfigMapName cr
        /\ key (Service.Meta service) = GetFeServiceName cr
        /\ key (Service.Meta peerService) = GetFePeerServiceName cr
        /\ key (StatefulSet.Meta statefulSet) = GetFeStatefulSetName cr
        /\ Forall (fun ns => ns = DorisCluster.Namespace cr)
             [ ObjectMeta.Namespace (ConfigMap.Meta configMap);
               ObjectMeta.Namespace (Service.Meta service);
               ObjectMeta.Namespace (Service.Meta peerService);
               ObjectMeta.Namespace (StatefulSet.Meta statefulSet) ]
        /\ StatefulSetSpec.ServiceName (StatefulSet.Spec statefulSet)
           = ObjectMeta.Name (Service.Meta peerService)
        /\ Volume.mk "conf"
             (VolumeSource.ConfigMap (ObjectMeta.Name (ConfigMap.Meta configMap)))
             ∈ PodSpec.Volumes (PodTemplateSpec.Spec template)
        /\ StatefulSetSpec.Selector (StatefulSet.Spec statefulSet)
           = Some (LabelSelector.mk (ObjectMeta.Labels (PodTemplateSpec.Meta template)))
        /\ ServiceSpec.Selector (Service.Spec service)
           = ObjectMeta.Labels (PodTemplateSpec.Meta template)
        /\ ServiceSpec.Selector (Service.Spec peerService)
           = ObjectMeta.Labels (PodTemplateSpec.Meta template)).
Proof.
  intros Hfe.
  unfold MakeFeConfigMap, MakeFeService, MakeFePeerService, MakeFeStatefulSet.
  rewrite Hfe.
  destruct (FESpec.Service fe) as [crSvc|].
  all: do 4 eexists.
  all: split; [reflexivity |]; split; [reflexivity |]; split; [reflexivity |].
  all: split; [reflexivity |]; cbv zeta.
  all: split; [reflexivity |]; split; [reflexivity |]; split; [reflexivity |].
  all: split; [reflexivity |]; split; [repeat constructor |].
  all: split; [reflexivity |]; split; [apply list_elem_of_here |].
  all: split; [reflexivity |]; split; reflexivity.
Qed.

(** With FE declared, the user's service override reaches the client service
    only: its type is the override's when that is non-empty and ClusterIP
    otherwise, and without an override its NodePorts are unset.  The peer
    service is always headless, of type ClusterIP, with no NodePort and with
    the ports http, edit-log and rpc in that order. *)
Theorem fe_service_shapes (cr : DorisCluster.t) (fe : FESpec.t) :
  DorisClusterSpec.FE (DorisCluster.Spec cr) = Some fe ->
  exists service peerService,
    MakeFeService cr = Some service
    /\ MakeFePeerService cr = Some peerService
    /\ ServiceSpec.Type_ (Service.Spec service)
       = match FESpec.Service fe with
         | Some crSvc =>
             if decide (ExportService.Type_ crSvc = "")
             then ServiceTypeClusterIP else ExportService.Type_ crSvc
         | None => ServiceTypeClusterIP
         end
    /\ map ServicePort.Name (ServiceSpec.Ports (Service.Spec service))
       = ["http-port"; "query-port"]
    /\ (FESpec.Service fe = None ->
        Forall (fun p => ServicePort.NodePort p = 0)
          (ServiceSpec.Ports (Service.Spec service)))
    /\ ServiceSpec.Type_ (Service.Spec peerService) = ServiceTypeClusterIP
    /\ ServiceSpec.ClusterIP (Service.Spec peerService) = "None"
    /\ map ServicePort.Name (ServiceSpec.Ports (Service.Spec peerService))
       = ["http-port"; "edit-log-port"; "rpc-port"]
    /\ Forall (fun p => ServicePort.NodePort p = 0)
         (ServiceSpec.Ports (Service.Spec peerService)).
Proof.
  intros Hfe. unfold MakeFeService, MakeFePeerService. rewrite Hfe.
  destruct (FESpec.Service fe) as [crSvc|].
  all: do 2 eexists.
  all: split; [reflexivity |]; split; [reflexivity |]; split; [reflexivity |].
  all: split;
    [ try destruct (ExportService.QueryPort crSvc);
      try destruct (ExportService.HttpPort crSvc); reflexivity |].
  all: split; [intros E; first [discriminate E | repeat constructor] |].
  all: split; [reflexivity |]; split; [reflexivity |]; split; [reflexivity |].
  all: repeat constructor.
Qed.

(** With FE declared, the workload set keeps what the user added and never
    lets it displace the operator's own entries: the main container, named
    "fe", comes first and the user's containers follow; the user's volumes,
    environment variables and mounts follow the two volumes, three variables
    and three mounts of the operator; the init containers are the user's;
    and the replica count is the declared one. *)
Theorem MakeFeStatefulSet_keeps_user_additions (cr : DorisCluster.t)
  (fe : FESpec.t) :
  DorisClusterSpec.FE (DorisCluster.Spec cr) = Some fe ->
  exists statefulSet mainContainer,
    MakeFeStatefulSet cr = Some statefulSet
    /\ (let pod :=
          PodTemplateSpec.Spec
            (StatefulSetSpec.Template (StatefulSet.Spec statefulSet)) in
        PodSpec.Containers pod = mainContainer :: FESpec.AdditionalContainers fe
        /\ Container.Name mainContainer = "fe"
        /\ PodSpec.InitContainers pod = FESpec.AdditionalInitContainers fe
        /\ map Volume.Name (take 2 (PodSpec.Volumes pod)) = ["conf"; "fe-log"]
        /\ drop 2 (PodSpec.Volumes pod) = FESpec.AdditionalVolumes fe
        /\ map EnvVar.Name (take 3 (Container.Env mainContainer))
           = ["FE_SVC"; "ACC_USER"; "ACC_PWD"]
        /\ drop 3 (Container.Env mainContainer) = FESpec.AdditionalEnvs fe
        /\ map VolumeMount.Name (take 3 (Container.VolumeMounts mainContainer))
           = ["conf"; "fe-meta"; "fe-log"]
        /\ drop 3 (Container.VolumeMounts mainContainer)
           = FESpec.AdditionalVolumeMounts fe
        /\ StatefulSetSpec.Replicas (StatefulSet.Spec statefulSet)
           = Some (FESpec.Replicas fe)).
Proof.
  intros Hfe. unfold MakeFeStatefulSet. rewrite Hfe.
  do 2 eexists. split; [reflexivity |]. cbv zeta.
  repeat split; reflexivity.
Qed.

End fe_builders.

Section fe_pod.
Context `{Helpers}.

(** With FE declared, what the main container refers to exists: each of its
    own three mounts names a volume of the pod or the volume claim template,
    which always carries a storage request; FE_SVC is the name of the client
    service that [MakeFeService] builds; and ACC_USER and ACC_PWD are read
    from the keys "user" and "password" of the operator account secret. *)
Theorem fe_pod_references (cr : DorisCluster.t) (fe : FESpec.t) :
  DorisClusterSpec.FE (DorisCluster.Spec cr) = Some fe ->
  exists service statefulSet mainContainer others claim,
    MakeFeService cr = Some service
    /\ MakeFeStatefulSet cr = Some statefulSet
    /\ (let spec := StatefulSet.Spec statefulSet in
        let pod := PodTemplateSpec.Spec (StatefulSetSpec.Template spec) in
        let secret := NamespacedName.Name (GetOprSqlAccountSecretName cr) in
        PodSpec.Containers pod = mainContainer :: others
        /\ StatefulSetSpec.VolumeClaimTemplates spec = [claim]
        /\ is_Some (PersistentVolumeClaim.Requests claim !! ResourceStorage)
        /\ Forall
             (fun name =>
                name ∈ map Volume.Name (PodSpec.Volumes pod)
                \/ name = PersistentVolumeClaim.Name claim)
             (map VolumeMount.Name (take 3 (Container.VolumeMounts mainContainer)))
        /\ EnvVar.mk "FE_SVC" (ObjectMeta.Name (Service.Meta service)) None
             ∈ Container.Env mainContainer
        /\ EnvVar.mk "ACC_USER" "" (Some (SecretKeySelector.mk secret "user"))
             ∈ Container.Env mainContainer
        /\ EnvVar.mk "ACC_PWD" "" (Some (SecretKeySelector.mk secret "password"))
             ∈ Container.Env mainContainer).
Proof.
  intros Hfe. unfold MakeFeService, MakeFeStatefulSet. rewrite Hfe.
  destruct (FESpec.Service fe) as [crSvc|].
  all: do 5 eexists.
  all: split; [reflexivity |]; split; [reflexivity |]; cbv zeta.
  all: split; [reflexivity |]; split; [reflexivity |].
  all: split; [eexists; apply lookup_singleton_eq |].
  all: split;
    [ repeat apply Forall_cons_2; [| | | apply Forall_nil_2];
      first [ right; reflexivity
            | left; cbn [map app PodSpec.Volumes PodTemplateSpec.Spec
                         StatefulSetSpec.Template StatefulSet.Spec Volume.Name];
              rewrite !elem_of_cons; tauto ] |].
  all: cbn [Container.Env app]; rewrite !elem_of_cons; tauto.
Qed.

End fe_pod.

(** ** Paths and errors of the stages *)

(* Split every answer in the context into its cases. *)
Ltac crack :=
  repeat match goal with
         | a : option error |- _ => destruct a
         | a : (_ * _)%type |- _ => destruct a
         | a : bool |- _ => destruct a
         | a : option DorisAutoScaler.t |- _ => destruct a
         end;
  cbn [fst snd negb].

(* Run a stage to its end, over every answer the client may give. *)
Ltac explore :=
  unfold rExist, rCreate, rCreateOrUpdate, rDeleteWhenExist,
    rFindRefDorisAutoScaler;
  cbv zeta;
  repeat first
    [ stage_call; crack
    | rewrite bind_lift;
      match goal with
      | |- context [ match ?o with Returned _ => _ | Panicked _ => _ end ] =>
          destruct o eqn:?
      end ];
  cbn [after events outcome final app ret].

(* The role's sub-spec is absent, or declared. *)
Ltac by_declaration sub :=
  unfold util.Elvis;
  destruct sub as [?|] eqn:?;
  [ rewrite bool_decide_eq_true_2 by eauto
  | rewrite bool_decide_eq_false_2 by (intros [? ?]; discriminate) ].

Section stage_paths.
Context `{Helpers} `{Resources} {W : Type} `{Client W}.

(** Whether a role stage applies or deletes is decided by the presence of the
    role's sub-spec alone: with the sub-spec absent the stage issues nothing
    but deletions and reports the action delete; with it declared the stage
    deletes nothing and reports the action apply.  This holds for FE, BE, CN
    and Broker, whatever the client answers. *)
Theorem role_stage_path (cr : DorisCluster.t) (w : W) :
  pathFollows (DorisClusterSpec.FE (DorisCluster.Spec cr)) (recFeResources cr w)
  /\ pathFollows (DorisClusterSpec.BE (DorisCluster.Spec cr)) (recBeResources cr w)
  /\ pathFollows (DorisClusterSpec.CN (DorisCluster.Spec cr)) (recCnResources cr w)
  /\ pathFollows (DorisClusterSpec.Broker (DorisCluster.Spec cr))
       (recBrokerResources cr w).
Proof.
  split; [| split; [| split]].
  - unfold recFeResources, pathFollows.
    by_declaration (DorisClusterSpec.FE (DorisCluster.Spec cr)); explore;
      (split; [repeat constructor | intros r0 [= <-]; reflexivity]).
  - unfold recBeResources, pathFollows.
    by_declaration (DorisClusterSpec.BE (DorisCluster.Spec cr)); explore;
      (split; [repeat constructor | intros r0 [= <-]; reflexivity]).
  - unfold recCnResources, pathFollows.
    by_declaration (DorisClusterSpec.CN (DorisCluster.Spec cr)); explore;
      (split; [repeat constructor | intros r0 [= <-]; reflexivity]).
  - unfold recBrokerResources, pathFollows.
    by_declaration (DorisClusterSpec.Broker (DorisCluster.Spec cr)); explore;
      (split; [repeat constructor | intros r0 [= <-]; reflexivity]).
Qed.

(** No error is swallowed and none is invented: whenever one of the five
    stages returns, the error of its result is the answer of the last client
    call it made (nil when that call succeeded), and every earlier call of
    the stage succeeded. *)
Theorem stages_report_last_call (cr : DorisCluster.t) (w : W) :
  reportsLastCall (recOprAccountSecret cr w)
  /\ reportsLastCall (recFeResources cr w)
  /\ reportsLastCall (recBeResources cr w)
  /\ reportsLastCall (recCnResources cr w)
  /\ reportsLastCall (recBrokerResources cr w).
Proof.
  split; [| split; [| split; [| split]]].
  - unfold recOprAccountSecret, reportsLastCall. explore;
      intros r0 [= <-]; (split; [reflexivity | repeat constructor]).
  - unfold recFeResources, reportsLastCall.
    by_declaration (DorisClusterSpec.FE (DorisCluster.Spec cr)); explore;
      intros r0 [= <-]; (split; [reflexivity | repeat constructor]).
  - unfold recBeResources, reportsLastCall.
    by_declaration (DorisClusterSpec.BE (DorisCluster.Spec cr)); explore;
      intros r0 [= <-]; (split; [reflexivity | repeat constructor]).
  - unfold recCnResources, reportsLastCall.
    by_declaration (DorisClusterSpec.CN (DorisCluster.Spec cr)); explore;
      intros r0 [= <-]; (split; [reflexivity | repeat constructor]).
  - unfold recBrokerResources, reportsLastCall.
    by_declaration (DorisClusterSpec.Broker (DorisCluster.Spec cr)); explore;
      intros r0 [= <-]; (split; [reflexivity | repeat constructor]).
Qed.

End stage_paths.

Section pass_results.
Context `{Helpers} `{Resources} {W : Type} `{Client W}.

Lemma outcome_bind {A B : Type} (c : M W A) (k : A -> M W B) (w : W) :
  outcome (bind c k w) =
  match outcome (c w) with
  | Returned a => outcome (k a (final (c w)))
  | Panicked p => Panicked p
  end.
Proof. unfold bind. destruct (outcome (c w)); reflexivity. Qed.

Lemma events_bind {A B : Type} (c : M W A) (k : A -> M W B) (w : W) :
  events (bind c k w) =
  events (c w) ++
  match outcome (c w) with
  | Returned a => events (k a (final (c w)))
  | Panicked p => []
  end.
Proof.
  unfold bind. destruct (outcome (c w)); cbn; [reflexivity |].
  rewrite app_nil_r. reflexivity.
Qed.

(* A stage builds its results with [clusterStageSucc] and
   [clusterStageFail] only. *)
Lemma stage_status_succeeded (cr : DorisCluster.t) :
  Forall
    (fun fn : M W ClusterStageRecResult.t =>
       forall w r,
         outcome (fn w) = Returned r ->
         ClusterStageRecResult.Status r = StageResultSucceeded)
    (stages cr).
Proof.
  unfold stages. repeat apply Forall_cons_2; [| | | | | apply Forall_nil_2]; intros w.
  - unfold recOprAccountSecret. explore; intros r0 [= <-]; reflexivity.
  - unfold recFeResources.
    by_declaration (DorisClusterSpec.FE (DorisCluster.Spec cr)); explore;
      intros r0 [= <-]; reflexivity.
  - unfold recBeResources.
    by_declaration (DorisClusterSpec.BE (DorisCluster.Spec cr)); explore;
      intros r0 [= <-]; reflexivity.
  - unfold recCnResources.
    by_declaration (DorisClusterSpec.CN (DorisCluster.Spec cr)); explore;
      intros r0 [= <-]; reflexivity.
  - unfold recBrokerResources.
    by_declaration (DorisClusterSpec.Broker (DorisCluster.Spec cr)); explore;
      intros r0 [= <-]; reflexivity.
Qed.

Lemma runStages_status (fns : list (M W ClusterStageRecResult.t)) :
  Forall
    (fun fn : M W ClusterStageRecResult.t =>
       forall w r,
         outcome (fn w) = Returned r ->
         ClusterStageRecResult.Status r = StageResultSucceeded)
    fns ->
  forall w r,
    outcome (runStages fns w) = Returned r ->
    ClusterStageRecResult.Status r = StageResultSucceeded.
Proof.
  induction 1 as [| fn rest Hfn _ IH]; intros w r; cbn [runStages].
  - intros [= <-]. reflexivity.
  - rewrite outcome_bind.
    destruct (outcome (fn w)) as [r1 | p] eqn:E; [| discriminate].
    destruct (ClusterStageRecResult.Err r1).
    + intros [= <-]. exact (Hfn w r1 E).
    + apply IH.
Qed.

(** Whatever [Reconcile] returns has the status succeeded: the "complete"
    result of a clean pass, and just as well the result of the stage that
    aborted the pass with an error.  The status never tells the two apart;
    only the error field does. *)
Theorem Reconcile_status_always_succeeded (cr : DorisCluster.t) (w : W)
  (r : ClusterStageRecResult.t) :
  outcome (Reconcile cr w) = Returned r ->
  ClusterStageRecResult.Status r = StageResultSucceeded
  /\ (ClusterStageRecResult.Err r = None ->
      ClusterStageRecResult.Stage r = StageComplete).
Proof.
  intros Hr. split.
  - exact (runStages_status _ (stage_status_succeeded cr) w r Hr).
  - revert Hr. unfold Reconcile. generalize (stages cr) w.
    induction l as [| fn rest IH]; intros w0; cbn [runStages].
    + intros [= <-]. reflexivity.
    + rewrite outcome_bind.
      destruct (outcome (fn w0)) as [r1 | p]; [| discriminate].
      destruct (ClusterStageRecResult.Err r1) eqn:E.
      * intros [= <-] Hnone. rewrite E in Hnone. discriminate Hnone.
      * apply IH.
Qed.

Lemma recOprAccountSecret_returns (cr : DorisCluster.t) (w : W) :
  exists r, outcome (recOprAccountSecret cr w) = Returned r.
Proof. unfold recOprAccountSecret. explore; eauto. Qed.

Lemma recFeResources_declared_outcome (cr : DorisCluster.t) (fe : FESpec.t) (w : W) :
  DorisClusterSpec.FE (DorisCluster.Spec cr) = Some fe ->
  outcome (recFeResources cr w) = Panicked NilMapAssignment
  \/ exists r e,
       outcome (recFeResources cr w) = Returned r
       /\ ClusterStageRecResult.Err r = Some e.
Proof.
  intros Hfe.
  assert (Hstamp :
    stampConfHash FeConfHashAnnotationKey (MakeFeConfigMap cr)
      (MakeFeStatefulSet cr) = Panicked NilMapAssignment).
  { unfold stampConfHash, MakeFeStatefulSet, MakeFeConfigMap.
    rewrite Hfe. reflexivity. }
  unfold recFeResources, util.Elvis. rewrite Hfe.
  rewrite bool_decide_eq_true_2 by eauto.
  unfold rCreateOrUpdate. cbv zeta.
  stage_call. destruct ans as [e|]; [right; eauto |].
  stage_call. destruct ans as [e|]; [right; eauto |].
  stage_call. destruct ans as [e|]; [right; eauto |].
  rewrite bind_lift, Hstamp. left. reflexivity.
Qed.

(** With FE declared, no pass ever completes: [Reconcile] either returns a
    result carrying an error or panics on the assignment into the nil
    annotation map, and the BE, CN and Broker stages are never reached: the
    client calls of the pass are calls of the shared-secret stage followed by
    calls of the FE stage. *)
Theorem Reconcile_with_FE_never_completes (cr : DorisCluster.t) (fe : FESpec.t)
  (w : W) :
  DorisClusterSpec.FE (DorisCluster.Spec cr) = Some fe ->
  (outcome (Reconcile cr w) = Panicked NilMapAssignment
   \/ exists r e,
        outcome (Reconcile cr w) = Returned r
        /\ ClusterStageRecResult.Err r = Some e)
  /\ events (Reconcile cr w)
       `prefix_of`
     events (recOprAccountSecret cr w)
     ++ events (recFeResources cr (final (recOprAccountSecret cr w))).
Proof.
  intros Hfe. unfold Reconcile, stages. cbn [runStages].
  rewrite outcome_bind, events_bind.
  destruct (recOprAccountSecret_returns cr w) as [r1 ->].
  destruct (ClusterStageRecResult.Err r1) as [e1|] eqn:E1.
  { split; [right; eauto |]. cbn. rewrite app_nil_r. apply prefix_app_r.
    reflexivity. }
  rewrite outcome_bind, events_bind.
  destruct (recFeResources_declared_outcome cr fe
              (final (recOprAccountSecret cr w)) Hfe)
    as [-> | (r2 & e2 & -> & E2)].
  - split; [left; reflexivity |]. rewrite app_nil_r. reflexivity.
  - rewrite E2. split; [right; eauto |]. cbn. rewrite app_nil_r. reflexivity.
Qed.

(** The delete paths of BE, CN and Broker, when every deletion succeeds:
    workload set first, then the client endpoint (BE and CN have one), the
    peer endpoint and the configuration bundle, with no other client call,
    and success reported for the role with the action delete. *)
Theorem delete_paths_order (cr : DorisCluster.t) :
  let key := DorisCluster.ObjKey cr in
  (forall w w1 w2 w3 w4 : W,
      DorisClusterSpec.BE (DorisCluster.Spec cr) = None ->
      DeleteWhenExist (GetBeStatefulSetKey cr) KStatefulSet w = (None, w1) ->
      DeleteWhenExist (GetBeServiceKey key) KService w1 = (None, w2) ->
      DeleteWhenExist (GetBePeerServiceKey key) KService w2 = (None, w3) ->
      DeleteWhenExist (GetBeConfigMapKey key) KConfigMap w3 = (None, w4) ->
      recBeResources cr w =
        mkRun (Returned (clusterStageSucc StageBe StageActionDelete)) w4
          [ EvDeleteWhenExist (GetBeStatefulSetKey cr) KStatefulSet None;
            EvDeleteWhenExist (GetBeServiceKey key) KService None;
            EvDeleteWhenExist (GetBePeerServiceKey key) KService None;
            EvDeleteWhenExist (GetBeConfigMapKey key) KConfigMap None ])
  /\ (forall w w1 w2 w3 w4 : W,
      DorisClusterSpec.CN (DorisCluster.Spec cr) = None ->
      DeleteWhenExist (GetCnStatefulSetKey key) KStatefulSet w = (None, w1) ->
      DeleteWhenExist (GetCnServiceKey key) KService w1 = (None, w2) ->
      DeleteWhenExist (GetCnPeerServiceKey key) KService w2 = (None, w3) ->
      DeleteWhenExist (GetCnConfigMapKey key) KConfigMap w3 = (None, w4) ->
      recCnResources cr w =
        mkRun (Returned (clusterStageSucc StageCn StageActionDelete)) w4
          [ EvDeleteWhenExist (GetCnStatefulSetKey key) KStatefulSet None;
            EvDeleteWhenExist (GetCnServiceKey key) KService None;
            EvDeleteWhenExist (GetCnPeerServiceKey key) KService None;
            EvDeleteWhenExist (GetCnConfigMapKey key) KConfigMap None ])
  /\ (forall w w1 w2 w3 : W,
      DorisClusterSpec.Broker (DorisCluster.Spec cr) = None ->
      DeleteWhenExist (GetBrokerStatefulSetKey key) KStatefulSet w = (None, w1) ->
      DeleteWhenExist (GetBrokerPeerServiceKey key) KService w1 = (None, w2) ->
      DeleteWhenExist (GetBrokerConfigMapKey key) KConfigMap w2 = (None, w3) ->
      recBrokerResources cr w =
        mkRun (Returned (clusterStageSucc StageBroker StageActionDelete)) w3
          [ EvDeleteWhenExist (GetBrokerStatefulSetKey key) KStatefulSet None;
            EvDeleteWhenExist (GetBrokerPeerServiceKey key) KService None;
            EvDeleteWhenExist (GetBrokerConfigMapKey key) KConfigMap None ]).
Proof.
  intros key. split; [| split].
  - intros w w1 w2 w3 w4 Hnone D1 D2 D3 D4.
    unfold recBeResources, util.Elvis. rewrite Hnone.
    rewrite bool_decide_eq_false_2 by (intros [x Hx]; discriminate Hx).
    unfold rDeleteWhenExist. cbv zeta. fold key.
    rewrite orFail_run, D1. cbn [fst snd].
    rewrite orFail_run, D2. cbn [fst snd].
    rewrite orFail_run, D3. cbn [fst snd].
    rewrite orFail_run, D4. reflexivity.
  - intros w w1 w2 w3 w4 Hnone D1 D2 D3 D4.
    unfold recCnResources, util.Elvis. rewrite Hnone.
    rewrite bool_decide_eq_false_2 by (intros [x Hx]; discriminate Hx).
    unfold rDeleteWhenExist. cbv zeta. fold key.
    rewrite orFail_run, D1. cbn [fst snd].
    rewrite orFail_run, D2. cbn [fst snd].
    rewrite orFail_run, D3. cbn [fst snd].
    rewrite orFail_run, D4. reflexivity.
  - intros w w1 w2 w3 Hnone D1 D2 D3.
    unfold recBrokerResources, util.Elvis. rewrite Hnone.
    rewrite bool_decide_eq_false_2 by (intros [x Hx]; discriminate Hx).
    unfold rDeleteWhenExist. cbv zeta. fold key.
    rewrite orFail_run, D1. cbn [fst snd].
    rewrite orFail_run, D2. cbn [fst snd].
    rewrite orFail_run, D3. reflexivity.
Qed.

(** The apply paths of BE and Broker, when the workload-set builder has
    initialised the annotation map and every apply succeeds: configuration
    bundle first, then the endpoints (BE: client and peer; Broker: peer
    only), the stamped workload set last, with no other client call.  The
    configuration bundle is thus in the store before the workload set that
    carries its hash is applied. *)
Theorem apply_paths_order (cr : DorisCluster.t) (stamped : StatefulSet.t) :
  (forall w w1 w2 w3 w4 : W,
      is_Some (DorisClusterSpec.BE (DorisCluster.Spec cr)) ->
      stampConfHash BeConfHashAnnotationKey (MakeBeConfigMap cr)
        (MakeBeStatefulSet cr) = Returned stamped ->
      CreateOrUpdate (OConfigMap (MakeBeConfigMap cr)) w = (None, w1) ->
      CreateOrUpdate (OService (MakeBeService cr)) w1 = (None, w2) ->
      CreateOrUpdate (OService (MakeBePeerService cr)) w2 = (None, w3) ->
      CreateOrUpdate (OStatefulSet (Some stamped)) w3 = (None, w4) ->
      recBeResources cr w =
        mkRun (Returned (clusterStageSucc StageBe StageActionApply)) w4
          [ EvCreateOrUpdate (OConfigMap (MakeBeConfigMap cr)) None;
            EvCreateOrUpdate (OService (MakeBeService cr)) None;
            EvCreateOrUpdate (OService (MakeBePeerService cr)) None;
            EvCreateOrUpdate (OStatefulSet (Some stamped)) None ])
  /\ (forall w w1 w2 w3 : W,
      is_Some (DorisClusterSpec.Broker (DorisCluster.Spec cr)) ->
      stampConfHash BrokerConfHashAnnotationKey (MakeBrokerConfigMap cr)
        (MakeBrokerStatefulSet cr) = Returned stamped ->
      CreateOrUpdate (OConfigMap (MakeBrokerConfigMap cr)) w = (None, w1) ->
      CreateOrUpdate (OService (MakeBrokerPeerService cr)) w1 = (None, w2) ->
      CreateOrUpdate (OStatefulSet (Some stamped)) w2 = (None, w3) ->
      recBrokerResources cr w =
        mkRun (Returned (clusterStageSucc StageBroker StageActionApply)) w3
          [ EvCreateOrUpdate (OConfigMap (MakeBrokerConfigMap cr)) None;
            EvCreateOrUpdate (OService (MakeBrokerPeerService cr)) None;
            EvCreateOrUpdate (OStatefulSet (Some stamped)) None ]).
Proof.
  split.
  - intros w w1 w2 w3 w4 Hsome Hstamp A1 A2 A3 A4.
    unfold recBeResources, util.Elvis.
    rewrite (bool_decide_eq_true_2 _ Hsome).
    unfold rCreateOrUpdate. cbv zeta.
    rewrite orFail_run, A1. cbn [fst snd].
    rewrite orFail_run, A2. cbn [fst snd].
    rewrite orFail_run, A3. cbn [fst snd].
    rewrite bind_lift, Hstamp.
    rewrite orFail_run, A4. reflexivity.
  - intros w w1 w2 w3 Hsome Hstamp A1 A2 A3.
    unfold recBrokerResources, util.Elvis.
    rewrite (bool_decide_eq_true_2 _ Hsome).
    unfold rCreateOrUpdate. cbv zeta.
    rewrite orFail_run, A1. cbn [fst snd].
    rewrite orFail_run, A2. cbn [fst snd].
    rewrite bind_lift, Hstamp.
    rewrite orFail_run, A3. reflexivity.
Qed.

End pass_results.

(** ** Merged errors *)

Section merged_errors.
Import util_errors.

Lemma append_assoc (s t u : string) : (s +:+ t) +:+ u = s +:+ t +:+ u.
Proof.
  induction s as [| c s IH]; [reflexivity |].
  change (String c ((s +:+ t) +:+ u) = String c (s +:+ t +:+ u)).
  rewrite IH. reflexivity.
Qed.

Lemma Join_app (a b : list string) (sep : string) :
  a <> [] -> b <> [] ->
  Join (a ++ b) sep = Join a sep +:+ sep +:+ Join b sep.
Proof.
  intros Ha Hb. induction a as [| s [| s' a] IH]; [contradiction | |].
  - destruct b; [contradiction | reflexivity].
  - change (s +:+ sep +:+ Join ((s' :: a) ++ b) sep
            = (s +:+ sep +:+ Join (s' :: a) sep) +:+ sep +:+ Join b sep).
    rewrite IH by discriminate. rewrite !append_assoc. reflexivity.
Qed.

(* The loop of MergeErrors: the non-nil entries, in order, after [acc]. *)
Lemma MergeErrors_loop (errs acc : list (option error)) :
  foldl (fun errorList err =>
           match err with
           | Some _ => errorList ++ [err]
           | None => errorList
           end)
    acc errs
  = acc ++ (Some <$> omap id errs).
Proof.
  revert acc. induction errs as [| [e|] errs IH]; intros acc; cbn.
  - rewrite app_nil_r. reflexivity.
  - rewrite IH, <- app_assoc. reflexivity.
  - apply IH.
Qed.

Lemma MergeErrors_unfold (errs : list (option error)) :
  MergeErrors errs =
  match omap id errs with
  | [] => None
  | msgs => Some (MultiError.mk (Some <$> msgs))
  end.
Proof.
  unfold MergeErrors. rewrite MergeErrors_loop. cbn [app].
  destruct (omap id errs); reflexivity.
Qed.

(* The loop of Error over a slice without nil entries. *)
Lemma Error_loop (msgs acc : list error) :
  foldl (fun errStrs err =>
           match errStrs, err with
           | Returned errStrs, Some err => Returned (errStrs ++ [err])
           | Returned _, None => Panicked NilPointerDereference
           | Panicked p, _ => Panicked p
           end)
    (Returned acc) (Some <$> msgs)
  = Returned (acc ++ msgs).
Proof.
  revert acc. induction msgs as [| m msgs IH]; intros acc; cbn.
  - rewrite app_nil_r. reflexivity.
  - rewrite IH, <- app_assoc. reflexivity.
Qed.

Lemma Error_MergeErrors (errs : list (option error)) :
  MultiError.Error (MergeErrors errs) =
  match omap id errs with
  | [] => Panicked NilPointerDereference
  | msgs => Returned (Join msgs "; ")
  end.
Proof.
  rewrite MergeErrors_unfold. unfold error in *.
  destruct (omap id errs) as [| m msgs] eqn:E; [reflexivity |].
  unfold MultiError.Error. cbn [MultiError.Errors].
  rewrite Error_loop. reflexivity.
Qed.

Lemma omap_id_Some (msgs : list string) : omap id (Some <$> msgs) = msgs.
Proof. induction msgs as [| x k IH]; cbn; [reflexivity | f_equal; exact IH]. Qed.

(** MergeErrors keeps exactly the non-nil errors, in the order given: it
    returns nil if and only if every argument is nil (no argument at all
    included); a non-nil result holds no nil entry and at least one error;
    merging a concatenation gives the messages of the parts, concatenated;
    and merging the entries of a merged error gives that error back. *)
Theorem MergeErrors_keeps_the_errors (errs errs' : list (option error)) :
  messages (MergeErrors errs) = omap id errs
  /\ (MergeErrors errs = None <-> Forall (fun err => err = None) errs)
  /\ (forall m,
        MergeErrors errs = Some m ->
        MultiError.Errors m = Some <$> omap id errs
        /\ MultiError.Errors m <> []
        /\ MergeErrors (MultiError.Errors m) = Some m)
  /\ messages (MergeErrors (errs ++ errs'))
     = messages (MergeErrors errs) ++ messages (MergeErrors errs').
Proof.
  unfold error in *.
  assert (Hmsgs : forall l : list (option string),
             messages (MergeErrors l) = omap id l).
  { intros l. rewrite MergeErrors_unfold. unfold error in *.
    destruct (omap id l) as [| m msgs] eqn:E; [reflexivity |].
    unfold messages. cbn [MultiError.Errors]. apply omap_id_Some. }
  split; [apply Hmsgs |]. split; [| split].
  - rewrite MergeErrors_unfold. unfold error in *. split.
    + intros Hnil. destruct (omap id errs) eqn:E; [| discriminate].
      clear Hnil. induction errs as [| [e|] errs IH]; cbn in E.
      * constructor.
      * discriminate E.
      * constructor; [reflexivity | apply IH; exact E].
    + intros Hall. induction Hall as [| err errs -> _ IH]; [reflexivity |].
      cbn. exact IH.
  - intros m. rewrite MergeErrors_unfold. unfold error in *.
    destruct (omap id errs) as [| x msgs] eqn:E; [discriminate |].
    intros [= <-].
    split; [reflexivity |]. split; [discriminate |].
    change (MergeErrors (Some <$> x :: msgs)
            = Some (MultiError.mk (Some <$> x :: msgs))).
    rewrite MergeErrors_unfold. unfold error in *.
    rewrite (omap_id_Some (x :: msgs)). reflexivity.
  - rewrite !Hmsgs. apply omap_app.
Qed.

(** The message of a merged error: calling Error on the result of MergeErrors
    panics when the result is nil (every argument was nil) and otherwise
    returns the messages of the non-nil arguments joined by "; ", a single
    error giving its own message.  When two lists each hold an error, the
    message of their concatenation is the two messages joined by "; ". *)
Theorem Error_of_MergeErrors (errs errs' : list (option error)) :
  MultiError.Error (MergeErrors errs)
    = (if decide (omap id errs = [])
       then Panicked NilPointerDereference
       else Returned (Join (omap id errs) "; "))
  /\ (forall err, MultiError.Error (MergeErrors [Some err]) = Returned err)
  /\ (forall s s',
        MultiError.Error (MergeErrors errs) = Returned s ->
        MultiError.Error (MergeErrors errs') = Returned s' ->
        MultiError.Error (MergeErrors (errs ++ errs'))
        = Returned (s +:+ "; " +:+ s')).
Proof.
  split; [| split].
  - rewrite Error_MergeErrors. unfold error in *.
    destruct (omap id errs); reflexivity.
  - reflexivity.
  - intros s s'. rewrite !Error_MergeErrors, omap_app. unfold error in *.
    destruct (omap id errs) as [| x a] eqn:Ea; [discriminate |].
    destruct (omap id errs') as [| y b] eqn:Eb; [discriminate |].
    intros [= Hs] [= Hs']. rewrite <- Hs, <- Hs'.
    change (Returned (Join ((x :: a) ++ y :: b) "; ")
            = Returned (Join (x :: a) "; " +:+ "; " +:+ Join (y :: b) "; ")).
    rewrite (Join_app (x :: a) (y :: b)) by discriminate. reflexivity.
Qed.

(* The loop of MergeErrorsWithTag: the non-nil entries, under their tags. *)
Lemma MergeErrorsWithTag_loop (errors : gmap string (option error)) (tag : string) :
  map_fold (fun tag err (errMap : gmap string (option error)) =>
              match err with
              | Some _ => <[ tag := err ]> errMap
              | None => errMap
              end)
    ∅ errors !! tag
  = match errors !! tag with
    | Some (Some err) => Some (Some err)
    | _ => None
    end.
Proof.
  revert tag.
  apply (map_fold_weak_ind
           (fun (r : gmap string (option error)) (m : gmap string (option error)) =>
              forall tag,
                r !! tag = match m !! tag with
                           | Some (Some err) => Some (Some err)
                           | _ => None
                           end)).
  - intros tag. rewrite !lookup_empty. reflexivity.
  - intros i x m r Hfresh IH tag.
    destruct (decide (i = tag)) as [-> | Hne].
    + rewrite lookup_insert_eq. destruct x as [e|].
      * apply lookup_insert_eq.
      * rewrite IH, Hfresh. reflexivity.
    + rewrite (lookup_insert_ne m) by exact Hne. destruct x as [e|].
      * rewrite lookup_insert_ne by exact Hne. apply IH.
      * apply IH.
Qed.

(** MergeErrorsWithTag keeps exactly the tagged errors that are not nil:
    a tag of the result maps to the error it had in the argument, a tag
    whose error was nil, or that was absent, is absent from the result; and
    the result is nil if and only if no tag of the argument has an error. *)
Theorem MergeErrorsWithTag_keeps_the_errors (errors : gmap string (option error)) :
  (forall m tag,
      MergeErrorsWithTag errors = Some m ->
      MultiTaggedError.Errors m !! tag
      = match errors !! tag with
        | Some (Some err) => Some (Some err)
        | _ => None
        end)
  /\ (MergeErrorsWithTag errors = None
      <-> forall tag err, errors !! tag <> Some (Some err)).
Proof.
  unfold MergeErrorsWithTag.
  set (errMap :=
         map_fold (fun tag err (errMap : gmap string (option error)) =>
                     match err with
                     | Some _ => <[ tag := err ]> errMap
                     | None => errMap
                     end)
           ∅ errors).
  assert (Hloop : forall tag,
             errMap !! tag = match errors !! tag with
                             | Some (Some err) => Some (Some err)
                             | _ => None
                             end)
    by apply MergeErrorsWithTag_loop.
  split.
  - intros m tag. destruct (decide (size errMap = 0%nat)); [discriminate |].
    intros [= <-]. apply Hloop.
  - destruct (decide (size errMap = 0%nat)) as [Hz | Hnz]; split.
    + intros _ tag err Herr.
      apply map_size_empty_iff in Hz.
      pose proof (Hloop tag) as Ht. rewrite Hz, lookup_empty, Herr in Ht.
      discriminate Ht.
    + reflexivity.
    + discriminate.
    + intros Hnone. exfalso. apply Hnz. apply map_size_empty_iff.
      apply map_empty. intros tag. rewrite Hloop.
      destruct (errors !! tag) as [[err|]|] eqn:E; [| reflexivity | reflexivity].
      exfalso. exact (Hnone tag err E).
Qed.

End merged_errors.

(** * The pipeline on explicit inputs *)

Import sample.

Lemma MapMd5_inj (d d' : gmap string string) :
  transformer.MapMd5 d = transformer.MapMd5 d' -> d = d'.
Proof.
  change (pretty (encode d) = pretty (encode d') -> d = d'). intros E.
  apply (inj pretty) in E. apply (inj encode) in E. exact E.
Qed.

Lemma MergeMaps_keeps_own (m : gmap string string) (v : string) :
  transformer.MergeMaps m {[ "fe.conf" := v ]} !! "fe.conf" = Some v.
Proof.
  change (({[ "fe.conf" := v ]} ∪ m : gmap string string) !! "fe.conf" = Some v).
  apply lookup_union_Some_l, lookup_singleton_eq.
Qed.

(** ** The configuration hash under the reference helpers *)

Lemma escape_inj (s s' : string) : escape s = escape s' -> s = s'.
Proof.
  revert s'. induction s as [| c s IH]; intros [| c' s']; cbn [escape].
  - reflexivity.
  - unfold escapeChar. repeat case_decide; discriminate.
  - unfold escapeChar. repeat case_decide; discriminate.
  - unfold escapeChar.
    repeat case_decide; cbn; intros E; simplify_eq;
      first [ f_equal; apply IH; assumption | congruence ].
Qed.

(* Escaped text holds neither a bare separator nor a bare line break. *)
Lemma escape_plain (d : Ascii.ascii) (s : string) :
  d = equalsSign \/ d = lineFeed -> ~ occurs d (escape s).
Proof.
  intros Hd. induction s as [| c s IH]; cbn [escape]; [exact id |].
  unfold escapeChar.
  repeat case_decide; cbn; intros Hocc;
    repeat (destruct Hocc as [Hocc | Hocc];
            [destruct Hd; subst; first [discriminate | congruence] |]);
    exact (IH Hocc).
Qed.

Lemma split_at_first (d : Ascii.ascii) (k k' t t' : string) :
  ~ occurs d k -> ~ occurs d k' ->
  k +:+ String d t = k' +:+ String d t' -> k = k' /\ t = t'.
Proof.
  revert k'. induction k as [| c k IH]; intros [| c' k'] Hk Hk'; cbn;
    intros E; simplify_eq.
  - auto.
  - exfalso. apply Hk'. left. reflexivity.
  - exfalso. apply Hk. left. reflexivity.
  - destruct (IH k') as [-> ->]; try assumption; [| | auto].
    + intros Ho. apply Hk. right. exact Ho.
    + intros Ho. apply Hk'. right. exact Ho.
Qed.

Lemma renderEntry_inj (kv kv' : string * string) (rest rest' : string) :
  renderEntry kv rest = renderEntry kv' rest' -> kv = kv' /\ rest = rest'.
Proof.
  unfold renderEntry. intros E.
  apply split_at_first in E as [Ek E];
    [| apply escape_plain; left; reflexivity ..].
  apply split_at_first in E as [Ev E];
    [| apply escape_plain; right; reflexivity ..].
  apply escape_inj in Ek, Ev. destruct kv, kv'; cbn in *. subst. auto.
Qed.

(* Different entries are rendered differently. *)
Lemma renderEntries_inj (m m' : gmap string string) :
  renderEntries m = renderEntries m' -> m = m'.
Proof.
  unfold renderEntries. intros E. apply map_to_list_inj.
  enough (map_to_list m = map_to_list m') as -> by reflexivity.
  revert E. generalize (map_to_list m) (map_to_list m').
  induction l as [| kv l IH]; intros [| kv' l']; cbn [foldr].
  - reflexivity.
  - unfold renderEntry. destruct (escape kv'.1); discriminate.
  - unfold renderEntry. destruct (escape kv.1); discriminate.
  - intros E. apply renderEntry_inj in E as [-> E]. f_equal. apply IH, E.
Qed.

Lemma dumpJavaBasedComponentConf_inj (m m' : gmap string string) :
  dumpJavaBasedComponentConf m = dumpJavaBasedComponentConf m' -> m = m'.
Proof. exact (renderEntries_inj m m'). Qed.


(** ** The claims on explicit inputs *)

(** With no role declared and a store that refuses to delete workload sets,
    the pass creates the secret, fails in the FE stage and stops. *)
Lemma Reconcile_fail_fast_witness :
  outcome (Reconcile crNone wDeleteRefused)
    = Returned
        (ClusterStageRecResult.mk StageFeConfigmap StageResultSucceeded
           StageActionDelete (Some "delete refused"))
  /\ map describe (events (Reconcile crNone wDeleteRefused))
     = [ ("Exist", ("Secret", "doris-opr-account"));
         ("Create", ("Secret", "doris-opr-account"));
         ("DeleteWhenExist", ("StatefulSet", "doris-fe")) ].
Proof.
  pose proof
    (proj1 (proj2 (Reconcile_fail_fast crNone))
       [recOprAccountSecret crNone] (recFeResources crNone)
       [recBeResources crNone; recCnResources crNone; recBrokerResources crNone]
       wDeleteRefused
       (final (recOprAccountSecret crNone wDeleteRefused))
       (final (recFeResources crNone
                 (final (recOprAccountSecret crNone wDeleteRefused))))
       (ClusterStageRecResult.mk StageFeConfigmap StageResultSucceeded
          StageActionDelete (Some "delete refused"))
       "delete refused"
       (events (recOprAccountSecret crNone wDeleteRefused) ++ [])
       (events (recFeResources crNone
                  (final (recOprAccountSecret crNone wDeleteRefused))))
       eq_refl) as Hpass.
  rewrite Hpass.
  - split; vm_compute; reflexivity.
  - eapply (runClean_cons _ _ _ _ _
              (clusterStageSucc StageSqlAccountSecret StageActionApply)).
    + vm_compute. reflexivity.
    + reflexivity.
    + apply runClean_nil.
  - vm_compute. reflexivity.
  - reflexivity.
Defined.

(** With the secret already in the store, the stage only checks for it: the
    stored secret, old password included, is what it was. *)
Lemma recOprAccountSecret_no_rotation_witness :
  recOprAccountSecret crNone wSecretPresent =
    mkRun (Returned (clusterStageSucc StageSqlAccountSecret StageActionApply))
      wSecretPresent
      [ EvExist (NamespacedName.mk "default" "doris-opr-account") KSecret
          (true, None) ].
Proof.
  assert (Exist (GetOprSqlAccountSecretKey (DorisCluster.ObjKey crNone)) KSecret
            wSecretPresent
          = ((true, None), wSecretPresent)) as Hpresent
    by (vm_compute; reflexivity).
  exact (proj1 (recOprAccountSecret_no_rotation crNone wSecretPresent)
           wSecretPresent Hpresent).
Defined.

(** CN declares three replicas.  With an autoscaler bound to the cluster,
    the workload set that is applied has no replica count; with none bound,
    it has the three. *)
Lemma recCnResources_replicas_witness :
  (StatefulSetSpec.Replicas ∘ StatefulSet.Spec) <$> MakeCnStatefulSet crCn
    = Some (Some 3)
  /\ (StatefulSetSpec.Replicas ∘ StatefulSet.Spec)
       <$> lastApplied (events (recCnResources crCn wScaled))
     = Some None
  /\ (StatefulSetSpec.Replicas ∘ StatefulSet.Spec)
       <$> lastApplied (events (recCnResources crCn emptyWorld))
     = Some (Some 3).
Proof.
  assert (exists built stamped,
             MakeCnStatefulSet crCn = Some built
             /\ stampConfHash CnConfHashAnnotationKey (MakeCnConfigMap crCn)
                  (Some built) = Returned stamped
             /\ StatefulSetSpec.Replicas (StatefulSet.Spec built) = Some 3)
    as (built & stamped & Hb & Hs & H3).
  { do 2 eexists. split; [reflexivity |]. split; reflexivity. }
  assert (forall w w1 w2 w3 found,
             CreateOrUpdate (OConfigMap (MakeCnConfigMap crCn)) w = (None, w1) ->
             CreateOrUpdate (OService (MakeCnService crCn)) w1 = (None, w2) ->
             CreateOrUpdate (OService (MakeCnPeerService crCn)) w2 = (None, w3) ->
             FindRefDorisAutoScaler (DorisCluster.ObjKey crCn) w3
             = ((found, None), w3) ->
             (StatefulSetSpec.Replicas ∘ StatefulSet.Spec)
               <$> lastApplied (events (recCnResources crCn w))
             = Some match found with
                    | Some _ => None
                    | None => Some 3
                    end) as Hrun.
  { intros w w1 w2 w3 found A1 A2 A3 Hfind.
    destruct (recCnResources_replicas crCn w w1 w2 w3 w3
                (CreateOrUpdate
                   (OStatefulSet (Some (cnApplied found stamped))) w3).2
                built stamped found
                (CreateOrUpdate
                   (OStatefulSet (Some (cnApplied found stamped))) w3).1)
      as (Hpass & Hrep & _);
      [eexists; reflexivity | assumption .. | apply surjective_pairing |].
    rewrite Hpass. unfold lastApplied.
    cbn [events last fmap option_fmap option_map compose].
    rewrite Hrep, H3. reflexivity. }
  split; [rewrite Hb; cbn; rewrite H3; reflexivity |].
  split.
  - eapply (Hrun wScaled _ _ _ (Some scaler)); reflexivity.
  - eapply (Hrun emptyWorld _ _ _ None); reflexivity.
Defined.

(** With no autoscaler bound, the three replicas are kept. *)
Example recCnResources_replicas_kept :
  (StatefulSetSpec.Replicas ∘ StatefulSet.Spec)
    <$> lastApplied (events (recCnResources crCn emptyWorld))
  = Some (Some 3).
Proof. vm_compute. reflexivity. Qed.

(** C6, refuted as stated: when the autoscaler lookup fails, the CN stage has
    already applied three CN-owned objects, and they are in the store. *)
Lemma recCnResources_applies_before_lookup :
  map describe (events (recCnResources crCn wLookupFails))
    = [ ("CreateOrUpdate", ("ConfigMap", "doris-cn-config"));
        ("CreateOrUpdate", ("Service", "doris-cn"));
        ("CreateOrUpdate", ("Service", "doris-cn-peer"));
        ("FindRefDorisAutoScaler", ("DorisAutoScaler", "doris")) ]
  /\ outcome (recCnResources crCn wLookupFails)
     = Returned (clusterStageFail StageCnStatefulSet StageActionApply "lookup failed")
  /\ size (objects (final (recCnResources crCn wLookupFails))) = 3%nat.
Proof. repeat split; vm_compute; reflexivity. Qed.

Lemma recCnResources_lookup_error_witness :
  outcome (recCnResources crCn wLookupFails)
    = Returned (clusterStageFail StageCnStatefulSet StageActionApply "lookup failed")
  /\ lastApplied (events (recCnResources crCn wLookupFails)) = None.
Proof.
  destruct (recCnResources_lookup_error crCn wLookupFails None "lookup failed")
    as (Hout & Hevs & Hnone).
  - vm_compute. eauto.
  - apply (list_elem_of_lookup_2 _ 3). vm_compute. reflexivity.
  - split; [exact Hout |]. rewrite Hevs. reflexivity.
Defined.

Example MakeCnStatefulSet_crCn_template_annotations :
  (fun built =>
     ObjectMeta.Annotations
       (PodTemplateSpec.Meta (StatefulSetSpec.Template (StatefulSet.Spec built)))
       ≫= (.!! CnConfHashAnnotationKey))
    <$> MakeCnStatefulSet crCn
  = Some None.
Proof. vm_compute. reflexivity. Qed.

Example recFeResources_crFe_applies_no_workload_set :
  lastApplied (events (recFeResources crFe emptyWorld)) = None.
Proof. vm_compute. reflexivity. Qed.

(** CN alone on a healthy store: the workload set that is applied carries
    the hash of the CN bundle under the CN key in its own annotations; its
    pod template is the built one and does not hold the key.  FE alone: the
    workload set that is built has no annotation map of its own, its pod
    template has one, without the FE key, and no workload set is applied. *)
Lemma apply_stamps_object_annotation_witness :
  (exists applied built,
      lastApplied (events (recCnResources crCn emptyWorld)) = Some applied
      /\ MakeCnStatefulSet crCn = Some built
      /\ ObjectMeta.Annotations (StatefulSet.Meta applied)
           ≫= (.!! CnConfHashAnnotationKey)
         = ConfigHash <$> MakeCnConfigMap crCn
      /\ StatefulSetSpec.Template (StatefulSet.Spec applied)
         = StatefulSetSpec.Template (StatefulSet.Spec built)
      /\ ObjectMeta.Annotations
           (PodTemplateSpec.Meta
              (StatefulSetSpec.Template (StatefulSet.Spec applied)))
           ≫= (.!! CnConfHashAnnotationKey)
         = None)
  /\ (exists built,
        MakeFeStatefulSet crFe = Some built
        /\ ObjectMeta.Annotations (StatefulSet.Meta built) = None
        /\ ObjectMeta.Annotations
             (PodTemplateSpec.Meta
                (StatefulSetSpec.Template (StatefulSet.Spec built)))
             ≫= (.!! FeConfHashAnnotationKey)
           = None
        /\ lastApplied (events (recFeResources crFe emptyWorld)) = None).
Proof.
  destruct (apply_stamps_object_annotation crCn emptyWorld)
    as (_ & Hcn & _ & Hshape & _ & _).
  destruct (apply_stamps_object_annotation crFe emptyWorld)
    as (_ & _ & _ & _ & Hfe & _).
  split.
  - assert (exists applied ans,
               last (events (recCnResources crCn emptyWorld))
               = Some (EvCreateOrUpdate (OStatefulSet (Some applied)) ans))
      as (applied & ans & Hlast)
      by (vm_compute; eauto).
    destruct (Hcn applied ans (last_Some_elem_of _ _ Hlast))
      as (stamped & found & Hst & _ & ->).
    pose proof Hst as (cm & built & anns & Hcm & Hb & _ & _).
    rewrite Hcm, Hb in Hst.
    destruct (Hshape _ cm built stamped found Hst) as [Hhash Htpl].
    exists (cnApplied found stamped), built.
    split; [unfold lastApplied; rewrite Hlast; reflexivity |].
    split; [exact Hb |].
    split; [rewrite Hhash, Hcm; reflexivity |].
    split; [exact Htpl |].
    rewrite Htpl.
    pose proof MakeCnStatefulSet_crCn_template_annotations as Hnone.
    rewrite Hb in Hnone. cbn [fmap option_fmap option_map] in Hnone.
    apply (inj Some) in Hnone. exact Hnone.
  - destruct (Hfe (feSpec 3 {[ "http_port" := "8031" ]} None) eq_refl)
      as (built & Hb & Hnil & Htpl & _).
    exists built.
    split; [exact Hb |]. split; [exact Hnil |].
    split; [rewrite Htpl; vm_compute; reflexivity |].
    exact recFeResources_crFe_applies_no_workload_set.
Defined.

(** Deleting the FE workload set fails: the result names the
    configuration-bundle step. *)
Lemma recFeResources_delete_failure_stage_witness :
  recFeResources crNone wDeleteRefused =
    mkRun
      (Returned
         (ClusterStageRecResult.mk StageFeConfigmap StageResultSucceeded
            StageActionDelete (Some "delete refused")))
      wDeleteRefused
      [ EvDeleteWhenExist (NamespacedName.mk "default" "doris-fe") KStatefulSet
          (Some "delete refused") ].
Proof.
  exact (recFeResources_delete_failure_stage crNone wDeleteRefused
           wDeleteRefused "delete refused" eq_refl eq_refl).
Defined.

Example recFeResources_crFe_panics :
  outcome (recFeResources crFe emptyWorld) = Panicked NilMapAssignment.
Proof. vm_compute. reflexivity. Qed.

(** With FE declared and a healthy store, the FE stage panics after three
    applies. *)
Lemma MakeFeStatefulSet_annotations_nil_witness :
  outcome (recFeResources crFe emptyWorld) = Panicked NilMapAssignment
  /\ lastApplied (events (recFeResources crFe emptyWorld)) = None.
Proof.
  destruct (MakeFeStatefulSet_annotations_nil crFe
              (feSpec 3 {[ "http_port" := "8031" ]} None) eq_refl)
    as (_ & _ & Hrun).
  destruct (Hrun emptyWorld) as [_ [Hp | (r & e & Hr & _)]].
  - split; [exact Hp | exact recFeResources_crFe_applies_no_workload_set].
  - exfalso. rewrite recFeResources_crFe_panics in Hr. discriminate Hr.
Defined.

(** rpc_port=9021 and query_port=9031 configured, NodePorts 30080 for http and
    30090 for query requested: the rpc port comes out as 9031, and the
    NodePorts are crossed. *)
Lemma fe_ports_as_coded_witness :
  GetFeRpcPort crPorts = 9031
  /\ sample.getPortValueFromRawConf
       (<[ "rpc_port" := "9021" ]> {[ "query_port" := "9031" ]}) "rpc_port" 9020
     = 9021
  /\ (fun s => map (fun p => (ServicePort.Name p, ServicePort.NodePort p))
                 (ServiceSpec.Ports (Service.Spec s)))
       <$> MakeFeService crPorts
     = Some [ ("http-port", 30090); ("query-port", 30080) ].
Proof.
  destruct (fe_ports_as_coded crPorts
              (feSpec 1
                 (<[ "rpc_port" := "9021" ]> {[ "query_port" := "9031" ]})
                 (Some (ExportService.mk "NodePort" None (Some 30080) (Some 30090))))
              eq_refl)
    as (_ & _ & _ & Hrpc & Hsvc).
  split; [rewrite Hrpc; vm_compute; reflexivity |].
  split; [vm_compute; reflexivity |].
  destruct (Hsvc _ eq_refl) as (service & -> & Hports).
  cbn [fmap option_fmap option_map]. rewrite Hports. reflexivity.
Defined.



(** With all roles declared absent and a healthy, empty store, the FE delete
    path issues its four deletions in order and succeeds although nothing
    was there to delete. *)
Lemma recFeResources_delete_order_witness :
  recFeResources crNone emptyWorld =
    mkRun (Returned (clusterStageSucc StageFe StageActionDelete)) emptyWorld
      [ EvDeleteWhenExist (NamespacedName.mk "default" "doris-fe") KStatefulSet None;
        EvDeleteWhenExist (NamespacedName.mk "default" "doris-fe") KService None;
        EvDeleteWhenExist (NamespacedName.mk "default" "doris-fe-peer") KService None;
        EvDeleteWhenExist (NamespacedName.mk "default" "doris-fe-config") KConfigMap
          None ].
Proof.
  exact (recFeResources_delete_order crNone emptyWorld emptyWorld emptyWorld
           emptyWorld emptyWorld eq_refl eq_refl eq_refl eq_refl eq_refl).
Defined.

(** A pass over a cluster that declares CN alone, on a healthy store, ends
    with the "complete" result after the secret, the three FE-less deletions
    of each absent role and the four CN applies. *)
Example Reconcile_crCn_complete :
  outcome (Reconcile crCn emptyWorld) = Returned complete
  /\ map (fun ev => (describe ev).1) (events (Reconcile crCn emptyWorld))
     = [ "Exist"; "Create";
         "DeleteWhenExist"; "DeleteWhenExist"; "DeleteWhenExist"; "DeleteWhenExist";
         "DeleteWhenExist"; "DeleteWhenExist"; "DeleteWhenExist"; "DeleteWhenExist";
         "CreateOrUpdate"; "CreateOrUpdate"; "CreateOrUpdate";
         "FindRefDorisAutoScaler"; "CreateOrUpdate";
         "DeleteWhenExist"; "DeleteWhenExist"; "DeleteWhenExist" ].
Proof. split; vm_compute; reflexivity. Qed.

(** ** The further properties on explicit inputs *)

Lemma fe_ports_consistent_witness :
  exists statefulSet mainContainer others probe,
    MakeFeStatefulSet crPorts = Some statefulSet
    /\ PodSpec.Containers
         (PodTemplateSpec.Spec
            (StatefulSetSpec.Template (StatefulSet.Spec statefulSet)))
       = mainContainer :: others
    /\ Container.ReadinessProbe mainContainer = Some probe
    /\ ContainerPort.mk "query-port" (Probe.TCPSocketPort probe)
         ∈ Container.Ports mainContainer.
Proof.
  assert (PrometheusScrapeAnnoKey <> PrometheusPortAnnoKey) as Hkeys
    by (intros E; discriminate E).
  destruct (fe_ports_consistent crPorts
              (feSpec 1
                 (<[ "rpc_port" := "9021" ]> {[ "query_port" := "9031" ]})
                 (Some (ExportService.mk "NodePort" None (Some 30080) (Some 30090))))
              eq_refl Hkeys)
    as (service & peer & sts & main & others & probe & http
        & _ & _ & Hsts & Hmain & _ & Hprobe & Hquery & _).
  exists sts, main, others, probe. auto.
Defined.

Lemma fe_objects_wired_witness :
  exists peerService statefulSet,
    MakeFePeerService crFe = Some peerService
    /\ MakeFeStatefulSet crFe = Some statefulSet
    /\ StatefulSetSpec.ServiceName (StatefulSet.Spec statefulSet)
       = ObjectMeta.Name (Service.Meta peerService).
Proof.
  destruct (fe_objects_wired crFe (feSpec 3 {[ "http_port" := "8031" ]} None)
              eq_refl)
    as (cm & service & peer & sts & _ & _ & Hpeer & Hsts
        & _ & _ & _ & _ & _ & Hname & _).
  exists peer, sts. auto.
Defined.

Lemma fe_service_shapes_witness :
  exists service peerService,
    MakeFeService crPorts = Some service
    /\ MakeFePeerService crPorts = Some peerService
    /\ ServiceSpec.Type_ (Service.Spec service) = "NodePort"
    /\ ServiceSpec.Type_ (Service.Spec peerService) = "ClusterIP"
    /\ ServiceSpec.ClusterIP (Service.Spec peerService) = "None".
Proof.
  destruct (fe_service_shapes crPorts
              (feSpec 1
                 (<[ "rpc_port" := "9021" ]> {[ "query_port" := "9031" ]})
                 (Some (ExportService.mk "NodePort" None (Some 30080) (Some 30090))))
              eq_refl)
    as (service & peer & Hs & Hp & Htype & _ & _ & Hptype & Hip & _).
  exists service, peer. auto.
Defined.

Lemma MakeFeStatefulSet_keeps_user_additions_witness :
  exists statefulSet mainContainer,
    MakeFeStatefulSet crFeRich = Some statefulSet
    /\ map Container.Name
         (PodSpec.Containers
            (PodTemplateSpec.Spec
               (StatefulSetSpec.Template (StatefulSet.Spec statefulSet))))
       = ["fe"; "sidecar"]
    /\ drop 3 (Container.Env mainContainer) = [EnvVar.mk "TZ" "UTC" None].
Proof.
  destruct (MakeFeStatefulSet_keeps_user_additions crFeRich feRich eq_refl)
    as (sts & main & Hsts & Hcs & Hname & _ & _ & _ & _ & Henv & _).
  exists sts, main. split; [exact Hsts |]. split; [| exact Henv].
  rewrite Hcs. cbn [map]. rewrite Hname. reflexivity.
Defined.

Example Reconcile_crNone_delete_refused :
  outcome (Reconcile crNone wDeleteRefused)
  = Returned
      (ClusterStageRecResult.mk StageFeConfigmap StageResultSucceeded
         StageActionDelete (Some "delete refused")).
Proof. vm_compute. reflexivity. Qed.

Lemma Reconcile_status_always_succeeded_witness :
  ClusterStageRecResult.Status
    (ClusterStageRecResult.mk StageFeConfigmap StageResultSucceeded
       StageActionDelete (Some "delete refused"))
  = StageResultSucceeded.
Proof.
  exact (proj1 (Reconcile_status_always_succeeded crNone wDeleteRefused _
                  Reconcile_crNone_delete_refused)).
Defined.

Example Reconcile_crFe_panics :
  outcome (Reconcile crFe emptyWorld) = Panicked NilMapAssignment
  /\ map describe (events (Reconcile crFe emptyWorld))
     = [ ("Exist", ("Secret", "doris-opr-account"));
         ("Create", ("Secret", "doris-opr-account"));
         ("CreateOrUpdate", ("ConfigMap", "doris-fe-config"));
         ("CreateOrUpdate", ("Service", "doris-fe"));
         ("CreateOrUpdate", ("Service", "doris-fe-peer")) ].
Proof. split; vm_compute; reflexivity. Qed.

Lemma Reconcile_with_FE_never_completes_witness :
  outcome (Reconcile crFe emptyWorld) = Panicked NilMapAssignment
  \/ exists r e,
       outcome (Reconcile crFe emptyWorld) = Returned r
       /\ ClusterStageRecResult.Err r = Some e.
Proof.
  exact (proj1 (Reconcile_with_FE_never_completes crFe
                  (feSpec 3 {[ "http_port" := "8031" ]} None) emptyWorld eq_refl)).
Defined.

Lemma delete_paths_order_witness :
  recBrokerResources crNone emptyWorld =
    mkRun (Returned (clusterStageSucc StageBroker StageActionDelete)) emptyWorld
      [ EvDeleteWhenExist (NamespacedName.mk "default" "doris-broker")
          KStatefulSet None;
        EvDeleteWhenExist (NamespacedName.mk "default" "doris-broker-peer")
          KService None;
        EvDeleteWhenExist (NamespacedName.mk "default" "doris-broker-config")
          KConfigMap None ].
Proof.
  exact (proj2 (proj2 (delete_paths_order crNone))
           emptyWorld emptyWorld emptyWorld emptyWorld
           eq_refl eq_refl eq_refl eq_refl).
Defined.

Example crBe_stamp :
  exists stamped,
    stampConfHash BeConfHashAnnotationKey (MakeBeConfigMap crBe)
      (MakeBeStatefulSet crBe) = Returned stamped.
Proof. vm_compute. eauto. Qed.

Lemma apply_paths_order_witness :
  outcome (recBeResources crBe emptyWorld)
    = Returned (clusterStageSucc StageBe StageActionApply)
  /\ map (fun ev => (describe ev).1) (events (recBeResources crBe emptyWorld))
     = [ "CreateOrUpdate"; "CreateOrUpdate"; "CreateOrUpdate"; "CreateOrUpdate" ]
  /\ is_Some (lastApplied (events (recBeResources crBe emptyWorld))).
Proof.
  destruct crBe_stamp as [stamped Hstamp].
  pose (w1 := (CreateOrUpdate (OConfigMap (MakeBeConfigMap crBe)) emptyWorld).2).
  pose (w2 := (CreateOrUpdate (OService (MakeBeService crBe)) w1).2).
  pose (w3 := (CreateOrUpdate (OService (MakeBePeerService crBe)) w2).2).
  pose (w4 := (CreateOrUpdate (OStatefulSet (Some stamped)) w3).2).
  assert (is_Some (DorisClusterSpec.BE (DorisCluster.Spec crBe))) as Hbe
    by (eexists; reflexivity).
  pose proof
    (proj1 (apply_paths_order crBe stamped) emptyWorld w1 w2 w3 w4 Hbe Hstamp
       eq_refl eq_refl eq_refl eq_refl) as Hrun.
  rewrite Hrun. split; [reflexivity |]. split; [reflexivity |].
  eexists. reflexivity.
Defined.

Lemma fe_pod_references_witness :
  exists service statefulSet mainContainer others,
    MakeFeService crFe = Some service
    /\ MakeFeStatefulSet crFe = Some statefulSet
    /\ PodSpec.Containers
         (PodTemplateSpec.Spec
            (StatefulSetSpec.Template (StatefulSet.Spec statefulSet)))
       = mainContainer :: others
    /\ EnvVar.mk "FE_SVC" (ObjectMeta.Name (Service.Meta service)) None
         ∈ Container.Env mainContainer.
Proof.
  destruct (fe_pod_references crFe (feSpec 3 {[ "http_port" := "8031" ]} None)
              eq_refl)
    as (service & sts & main & others & claim & Hs & Hsts
        & Hmain & _ & _ & _ & Hsvc & _).
  exists service, sts, main, others. auto.
Defined.
